(** * Script editor: the "Run Script" action and the embedded terminal

    A shallow embedding of the process-execution core of the two editor
    programs, [unify-main.py] and [advanced_script_editor.py]:

    - [ScriptTab.save] and [ScriptEditor.run_script], which are the same
      text in both programs (the advanced one reads the buffer through
      [self.text()] when QScintilla is present, which is the same buffer);
    - [TerminalWidget] of the advanced editor: [handle_keypress], [start],
      [on_stdout], [on_stderr].

    Python [str] values are lists of Unicode code points, [bytes] values are
    lists of byte values.  What the code calls in the Python runtime and in
    Qt ([str.strip], [str.encode], [bytes.decode], [os.path.splitext],
    [subprocess.check_output], [QProcess.write] ...) is modelled in the
    modules [Py] and [Qt] below, each function under the name it has there. *)

From Stdlib Require Import String Ascii.
From stdpp Require Import base option list gmap.
From Stdlib Require Import ZArith NArith Lia.

Open Scope N_scope.

(** Python [str]: a sequence of code points; [bytes]: a sequence of byte
    values (numbers below 256). *)
Abbreviation str := (list N) (only parsing).
Abbreviation bytes := (list N) (only parsing).

(** A string literal of the source, as a [str]. *)
Definition lit (s : string) : list N :=
  N_of_ascii <$> list_ascii_of_string s.

(* ===================================================================== *)
(** ** The Python runtime the editor calls into *)
(* ===================================================================== *)

Module Py.

(** Exceptions that the modelled calls can raise. *)
Inductive exn : Type :=
| OSError (strerror : str)
| CalledProcessError (returncode : Z) (output : str)
| UnicodeEncodeError
| UnicodeDecodeError.

(** The outcome of evaluating a piece of Python: a value or a raised
    exception. *)
Inductive result (A : Type) : Type :=
| Return (a : A)
| Raise (e : exn).
Arguments Return {A} a.
Arguments Raise {A} e.

(** Truthiness of a [str] ([if s:]). *)
Definition truthy (s : str) : bool :=
  match s with [] => false | _ :: _ => true end.

(** *** UTF-8, strict error handling

    [str.encode('utf-8')] and [bytes.decode()] (whose default codec is
    UTF-8 and whose default error handler is 'strict'). *)

Definition is_surrogate (c : N) : bool := (0xD800 <=? c) && (c <? 0xE000).

(** A code point that UTF-8 can encode: a Unicode scalar value. *)
Definition is_scalar (c : N) : bool := (c <? 0x110000) && negb (is_surrogate c).

(** A [str] without lone surrogates, which is what text is. *)
Definition well_formed (s : str) : bool := forallb is_scalar s.

Definition encode_code_point (c : N) : option bytes :=
  if c <? 0x80 then Some [c]
  else if c <? 0x800 then Some [0xC0 + c / 64; 0x80 + c mod 64]
  else if c <? 0x10000 then
    if is_surrogate c then None
    else Some [0xE0 + c / 4096; 0x80 + (c / 64) mod 64; 0x80 + c mod 64]
  else if c <? 0x110000 then
    Some [0xF0 + c / 262144; 0x80 + (c / 4096) mod 64;
          0x80 + (c / 64) mod 64; 0x80 + c mod 64]
  else None.

Fixpoint utf8_encode (s : str) : option bytes :=
  match s with
  | [] => Some []
  | c :: s' =>
      match encode_code_point c, utf8_encode s' with
      | Some b, Some bs => Some (b ++ bs)
      | _, _ => None
      end
  end.

(** [s.encode('utf-8')] *)
Definition encode (s : str) : result bytes :=
  match utf8_encode s with
  | Some bs => Return bs
  | None => Raise UnicodeEncodeError
  end.

Definition between (lo hi b : N) : bool := (lo <=? b) && (b <=? hi).

(** Continuation byte, 10xxxxxx. *)
Definition is_continuation (b : N) : bool := between 0x80 0xBF b.

(** The range allowed for the second byte of a sequence, which excludes
    overlong forms, surrogates and code points above U+10FFFF. *)
Definition second_byte_ok (b0 b1 : N) : bool :=
  if b0 =? 0xE0 then between 0xA0 0xBF b1
  else if b0 =? 0xED then between 0x80 0x9F b1
  else if b0 =? 0xF0 then between 0x90 0xBF b1
  else if b0 =? 0xF4 then between 0x80 0x8F b1
  else is_continuation b1.

Fixpoint utf8_decode (bs : bytes) : option str :=
  match bs with
  | [] => Some []
  | b0 :: r0 =>
      if b0 <? 0x80 then cons b0 <$> utf8_decode r0
      else if b0 <? 0xC2 then None
      else if b0 <? 0xE0 then
        match r0 with
        | b1 :: r1 =>
            if is_continuation b1
            then cons ((b0 - 0xC0) * 64 + (b1 - 0x80)) <$> utf8_decode r1
            else None
        | _ => None
        end
      else if b0 <? 0xF0 then
        match r0 with
        | b1 :: b2 :: r2 =>
            if second_byte_ok b0 b1 && is_continuation b2
            then cons ((b0 - 0xE0) * 4096 + (b1 - 0x80) * 64 + (b2 - 0x80))
                   <$> utf8_decode r2
            else None
        | _ => None
        end
      else if b0 <? 0xF5 then
        match r0 with
        | b1 :: b2 :: b3 :: r3 =>
            if second_byte_ok b0 b1 && is_continuation b2 && is_continuation b3
            then cons ((b0 - 0xF0) * 262144 + (b1 - 0x80) * 4096
                       + (b2 - 0x80) * 64 + (b3 - 0x80))
                   <$> utf8_decode r3
            else None
        | _ => None
        end
      else None
  end.

(** [b.decode()] *)
Definition decode (b : bytes) : result str :=
  match utf8_decode b with
  | Some s => Return s
  | None => Raise UnicodeDecodeError
  end.

(** *** [str.strip()]

    Removes the leading and trailing characters for which [str.isspace]
    holds. *)
Definition isspace (c : N) : bool :=
  between 0x09 0x0D c || between 0x1C 0x20 c || (c =? 0x85) || (c =? 0xA0)
  || (c =? 0x1680) || between 0x2000 0x200A c || (c =? 0x2028)
  || (c =? 0x2029) || (c =? 0x202F) || (c =? 0x205F) || (c =? 0x3000).

Fixpoint lstrip (s : str) : str :=
  match s with
  | c :: s' => if isspace c then lstrip s' else s
  | [] => []
  end.

Definition rstrip (s : str) : str := rev (lstrip (rev s)).

Definition strip (s : str) : str := rstrip (lstrip s).

(** *** [os.path.splitext] on Windows ([ntpath]) *)

(** [p.rfind(c)] for a one-character [c]: the last index of [c], or -1. *)
Fixpoint rfind_from (c : N) (p : str) (i : Z) (found : Z) : Z :=
  match p with
  | [] => found
  | x :: p' => rfind_from c p' (i + 1)%Z (if x =? c then i else found)
  end.

Definition rfind (c : N) (p : str) : Z := rfind_from c p 0%Z (-1)%Z.

(** The loop of [genericpath._splitext] that skips the leading dots of the
    file name: [true] when it meets a character that is not a dot before
    [dotIndex], [n] being the number of iterations left. *)
Fixpoint name_before_dot (p : str) (extsep : N) (filenameIndex : Z) (n : nat) : bool :=
  match n with
  | O => false
  | S n' =>
      match p !! Z.to_nat filenameIndex with
      | Some c =>
          if negb (c =? extsep) then true
          else name_before_dot p extsep (filenameIndex + 1)%Z n'
      | None => true
      end
  end.

Definition _splitext (p : str) (sep altsep extsep : N) : str * str :=
  let sepIndex := Z.max (rfind sep p) (rfind altsep p) in
  let dotIndex := rfind extsep p in
  if (sepIndex <? dotIndex)%Z
     && name_before_dot p extsep (sepIndex + 1)%Z
          (Z.to_nat (dotIndex - (sepIndex + 1)))
  then (take (Z.to_nat dotIndex) p, drop (Z.to_nat dotIndex) p)
  else (p, []).

(** [ntpath.splitext]: separators are the backslash and the slash. *)
Definition splitext (p : str) : str * str := _splitext p 92 47 46.

(** *** [subprocess.list2cmdline]

    How [subprocess] turns an argument list into the command line of a
    Windows process.  With [shell=True] that command line is not given to
    the program but to the command interpreter, as the text after
    [cmd.exe /c]. *)
Definition list2cmdline_step (st : str * str) (c : N) : str * str :=
  let '(result, bs_buf) := st in
  if c =? 92 then (result, bs_buf ++ [c])
  else if c =? 34 then (result ++ bs_buf ++ bs_buf ++ [92; 34], [])
  else (result ++ bs_buf ++ [c], []).

Definition list2cmdline_arg (arg : str) : str :=
  let needquote :=
    bool_decide (32 ∈ arg) || bool_decide (9 ∈ arg) || negb (truthy arg) in
  let '(result, bs_buf) := fold_left list2cmdline_step arg ([], []) in
  (if needquote then [34] else []) ++ result ++ bs_buf
  ++ (if needquote then bs_buf ++ [34] else []).

Fixpoint list2cmdline (seq : list str) : str :=
  match seq with
  | [] => []
  | [arg] => list2cmdline_arg arg
  | arg :: seq' => list2cmdline_arg arg ++ [32] ++ list2cmdline seq'
  end.

End Py.

(* ===================================================================== *)
(** ** State and exceptions *)
(* ===================================================================== *)

(** A computation over a mutable state [S] that returns an [A] or raises.
    The state reached when an exception is raised is kept, as in Python. *)
Definition M (S A : Type) : Type := S -> Py.result A * S.

Definition ret {S A} (a : A) : M S A := fun s => (Py.Return a, s).

Definition raise {S A} (e : Py.exn) : M S A := fun s => (Py.Raise e, s).

Definition bind {S A B} (m : M S A) (k : A -> M S B) : M S B :=
  fun s =>
    match m s with
    | (Py.Return a, s') => k a s'
    | (Py.Raise e, s') => (Py.Raise e, s')
    end.

Definition get {S} : M S S := fun s => (Py.Return s, s).

Definition modify {S} (f : S -> S) : M S unit := fun s => (Py.Return tt, f s).

(** [try: body  except ...: handler]: the handler names the exceptions it
    catches by returning [Some]. *)
Definition try_except {S A} (body : M S A) (handler : Py.exn -> option (M S A)) : M S A :=
  fun s =>
    match body s with
    | (Py.Return a, s') => (Py.Return a, s')
    | (Py.Raise e, s') =>
        match handler e with
        | Some h => h s'
        | None => (Py.Raise e, s')
        end
    end.

Notation "x <- m ;; k" := (bind m (fun x => k))
  (at level 100, m at next level, right associativity).
Notation "m ;; k" := (bind m (fun _ => k))
  (at level 100, right associativity).

(* ===================================================================== *)
(** ** The editor: [ScriptTab] and [ScriptEditor.run_script] *)
(* ===================================================================== *)

Module Editor.

(** [SUPPORTED_EXTENSIONS] *)
Definition SUPPORTED_EXTENSIONS : gmap (list N) (list N) :=
  {[ lit ".py" := lit "Python"; lit ".bat" := lit "Batch";
     lit ".ps1" := lit "PowerShell" ]}.

(** A [ScriptTab]: its [file_path] attribute ([None] for a tab without a
    file) and the text of its buffer ([toPlainText()]). *)
Record ScriptTab : Type := mkTab {
  file_path : option str;
  toPlainText : str;
}.

#[global] Instance ScriptTab_inhabited : Inhabited ScriptTab :=
  populate (mkTab None []).

(** What the run of the editor does to the outside, in order. *)
Inductive event : Type :=
| QMessageBox_warning (title text : str)
| QMessageBox_information (title text : str)
| FileWritten (path text : str)
| Popen (args : list str) (shell : bool).

(** The editor and the part of the machine it acts on: the tab objects of
    the [QTabWidget] (a tab is referred to by its position), the index of the
    current one (-1 when there is none), the text files on disk and the
    events so far. *)
Record World : Type := mkWorld {
  tabs : list ScriptTab;
  currentIndex : Z;
  disk : gmap (list N) (list N);
  events : list event;
}.

(** The two warnings of [run_script]. *)
Definition unsaved_warning : event :=
  QMessageBox_warning (lit "Run Script")
    (lit "You must save your script before running it!").

Definition unsupported_warning : event :=
  QMessageBox_warning (lit "Run Script") (lit "Unsupported script type!").

(** The widget that [self.tabs.currentWidget()] denotes, if any. *)
Definition current (w : World) : option ScriptTab :=
  if (currentIndex w <? 0)%Z then None
  else tabs w !! Z.to_nat (currentIndex w).

(** The world after more events, everything else as it was. *)
Definition add_events (w : World) (evs : list event) : World :=
  mkWorld (tabs w) (currentIndex w) (disk w) (events w ++ evs).

(** The world with a file holding a text. *)
Definition with_file (w : World) (path text : str) : World :=
  mkWorld (tabs w) (currentIndex w) (<[path := text]> (disk w)) (events w).

(** How a process launch ends: the OS could not create the process; or the
    process ran and exited with a return code, having written to its merged
    standard output and standard error bytes that [text=True] decodes to
    [output]; or it ran and exited having written bytes that do not decode. *)
Inductive launch : Type :=
| LaunchFailed (strerror : str)
| Exited (returncode : Z) (output : str)
| ExitedUndecodable (returncode : Z).

(** What the code cannot decide by itself. *)
Record Platform : Type := mkPlatform {
  (** [open(path, "w")]: [Some strerror] when it raises [OSError]. *)
  open_for_writing : str -> option str;
  (** creating a process for an argument list, through the shell or not, on
      a given disk; the output is the text that [text=True] makes of the
      merged streams.  What the process itself does to the disk is not
      followed: [disk] records what the editor writes. *)
  create_process : list str -> bool -> gmap (list N) (list N) -> launch;
  (** the path chosen in the "Save Script" dialog, empty when cancelled *)
  getSaveFileName : str;
}.

(** The argument lists of the process launches among some events, the
    launches that went through a shell, and the files written. *)
Definition commands (evs : list event) : list (list (list N)) :=
  omap (fun e => match e with Popen args _ => Some args | _ => None end) evs.

Definition shell_launches (evs : list event) : list (list (list N)) :=
  omap (fun e => match e with Popen args true => Some args | _ => None end) evs.

Definition writes (evs : list event) : list (list N * list N) :=
  omap (fun e => match e with FileWritten p t => Some (p, t) | _ => None end) evs.

Section Run.

Context (os : Platform).

Definition log (e : event) : M World unit :=
  modify (fun w => mkWorld (tabs w) (currentIndex w) (disk w) (events w ++ [e])).

Definition set_disk (d : gmap (list N) (list N)) : M World unit :=
  modify (fun w => mkWorld (tabs w) (currentIndex w) d (events w)).

(** Attribute access and assignment on the tab object [self]. *)
Definition get_tab (self : nat) : M World ScriptTab :=
  w <- get ;; ret (tabs w !!! self).

Definition set_file_path (self : nat) (p : option str) : M World unit :=
  modify (fun w =>
    mkWorld (alter (fun t => mkTab p (toPlainText t)) self (tabs w))
            (currentIndex w) (disk w) (events w)).

(** [not self.file_path] is true for [None] and for the empty string. *)
Definition has_path (p : option str) : bool :=
  match p with
  | Some s => Py.truthy s
  | None => false
  end.

(** [with open(path, "w", encoding="utf-8") as f: f.write(text)].
    Opening creates or truncates the file; writing encodes the text. *)
Definition write_text (path text : str) : M World unit :=
  match open_for_writing os path with
  | Some strerror => raise (Py.OSError strerror)
  | None =>
      w <- get ;;
      set_disk (<[path := []]> (disk w)) ;;
      match Py.utf8_encode text with
      | None => raise Py.UnicodeEncodeError
      | Some _ =>
          w <- get ;;
          set_disk (<[path := text]> (disk w)) ;;
          log (FileWritten path text)
      end
  end.

(** The save of a buffer to a path goes through: the file can be opened and
    the text can be encoded. *)
Definition save_goes_through (path text : str) : bool :=
  match open_for_writing os path, Py.utf8_encode text with
  | None, Some _ => true
  | _, _ => false
  end.

(** [ScriptTab.save] *)
Definition save (self : nat) : M World bool :=
  tab <- get_tab self ;;
  (if negb (has_path (file_path tab))
   then set_file_path self (Some (getSaveFileName os))
   else ret tt) ;;
  tab <- get_tab self ;;
  if has_path (file_path tab) then
    write_text (default [] (file_path tab)) (toPlainText tab) ;;
    ret true
  else ret false.

(** [ScriptEditor.current_tab]: every page of the tab widget is a
    [ScriptTab], so the [isinstance] test only excludes the absent widget. *)
Definition current_tab : M World (option nat) :=
  w <- get ;;
  if (currentIndex w <? 0)%Z then ret None
  else match tabs w !! Z.to_nat (currentIndex w) with
       | Some _ => ret (Some (Z.to_nat (currentIndex w)))
       | None => ret None
       end.

(** [subprocess.check_output(cmd, stderr=subprocess.STDOUT, text=True,
    shell=shell)]: the output when the return code is 0,
    [CalledProcessError] carrying the return code and the output otherwise,
    the [OSError] of the launch when no process could be created, and
    [UnicodeDecodeError] when what the process wrote cannot be decoded, which
    is found out before the return code is looked at. *)
Definition check_output (cmd : list str) (shell : bool) : M World str :=
  log (Popen cmd shell) ;;
  w <- get ;;
  match create_process os cmd shell (disk w) with
  | LaunchFailed strerror => raise (Py.OSError strerror)
  | Exited returncode output =>
      if (returncode =? 0)%Z then ret output
      else raise (Py.CalledProcessError returncode output)
  | ExitedUndecodable _ => raise Py.UnicodeDecodeError
  end.

(** The branch on the extension in [run_script]: the command list [cmd]
    that the [if]/[elif] chain builds for the file path of the tab, [None]
    standing for the [else] branch, where the function returns. *)
Definition run_script_cmd (file_path : str) : option (list (list N)) :=
  let ext := (Py.splitext file_path).2 in
  if bool_decide (ext = lit ".py") then Some [lit "python"; file_path]
  else if bool_decide (ext = lit ".bat") then Some [lit "cmd.exe"; lit "/c"; file_path]
  else if bool_decide (ext = lit ".ps1") then Some [lit "powershell"; lit "-File"; file_path]
  else None.

(** [ScriptEditor.run_script] *)
Definition run_script : M World unit :=
  tab <- current_tab ;;
  match tab with
  | None =>
      log (QMessageBox_warning (lit "Run Script")
             (lit "You must save your script before running it!"))
  | Some tab =>
      t <- get_tab tab ;;
      if negb (has_path (file_path t)) then
        log (QMessageBox_warning (lit "Run Script")
               (lit "You must save your script before running it!"))
      else
        match run_script_cmd (default [] (file_path t)) with
        | None =>
            log (QMessageBox_warning (lit "Run Script") (lit "Unsupported script type!"))
        | Some cmd =>
            save tab ;;
            try_except
              (output <- check_output cmd true ;;
               log (QMessageBox_information (lit "Execution Output") output))
              (fun e =>
                 match e with
                 | Py.CalledProcessError _ output =>
                     Some (log (QMessageBox_warning (lit "Execution Error") output))
                 | _ => None
                 end)
        end
  end.

End Run.

End Editor.

(* ===================================================================== *)
(** ** The terminal: [QProcess] and [TerminalWidget] *)
(* ===================================================================== *)

Module Qt.

(** [Qt.Key_Return] and [Qt.Key_Enter] (the key of the keypad). *)
Definition Key_Return : Z := 0x01000004.
Definition Key_Enter : Z := 0x01000005.

(** [QProcess::ProcessState] *)
Inductive ProcessState : Type := NotRunning | Starting | Running.

(** A [QProcess] object, with what it did to the outside: the programs it
    launched, and the bytes that reached the standard input of its child.
    The two buffers hold what the child wrote and the object has not handed
    out yet. *)
Record QProcess : Type := mkProcess {
  state : ProcessState;
  launched : list (list N);
  child_stdin : list N;
  stdout_buffer : list N;
  stderr_buffer : list N;
}.

(** [QProcess()] *)
Definition new_process : QProcess := mkProcess NotRunning [] [] [] [].

(** [QChar::isSpace]: the separators and the control characters from tab to
    carriage return, and the next-line character. *)
Definition isSpace (c : N) : bool :=
  Py.between 0x09 0x0D c || (c =? 0x20) || (c =? 0x85) || (c =? 0xA0)
  || (c =? 0x1680) || Py.between 0x2000 0x200A c || (c =? 0x2028)
  || (c =? 0x2029) || (c =? 0x202F) || (c =? 0x205F) || (c =? 0x3000).

(** One character of [parseCombinedArgString]: the arguments so far, the
    argument being read, the count of consecutive quotes and whether the
    text is inside quotes. *)
Definition parse_step (st : list (list N) * list N * nat * bool) (c : N)
  : list (list N) * list N * nat * bool :=
  let '(args, tmp, quoteCount, inQuote) := st in
  if c =? 34 then
    if (quoteCount =? 2)%nat then (args, tmp ++ [c], 0%nat, inQuote)
    else (args, tmp, S quoteCount, inQuote)
  else
    let inQuote := if (quoteCount =? 1)%nat then negb inQuote else inQuote in
    if negb inQuote && isSpace c then
      (if Py.truthy tmp then args ++ [tmp] else args, [], 0%nat, inQuote)
    else (args, tmp ++ [c], 0%nat, inQuote).

(** [parseCombinedArgString]: a command line split at the spaces outside
    quotes, the program first. *)
Definition parseCombinedArgString (command : str) : list (list N) :=
  let '(args, tmp, _, _) := fold_left parse_step command ([], [], 0%nat, false) in
  if Py.truthy tmp then args ++ [tmp] else args.

(** [QProcess.start(command)].  A command that names no program is an error
    that is reported and launches nothing.  A start is refused with a warning
    when the object already has a process.  Otherwise the buffers are reset
    and the OS is asked for the process: [created] says whether it creates
    one, in which case the process is starting with fresh pipes; if it does
    not, the object stays without a process. *)
Definition start (command : str) (created : bool) (p : QProcess) : QProcess :=
  match parseCombinedArgString command with
  | [] => p
  | _ :: _ =>
      match state p with
      | NotRunning =>
          if created then mkProcess Starting (launched p ++ [command]) [] [] []
          else mkProcess NotRunning (launched p) (child_stdin p) [] []
      | _ => p
      end
  end.

(** [QProcess.write(data)]: without a process nothing is delivered (the call
    reports that through its return value, which the editor does not read,
    and does not raise); with one, the bytes are queued for its input. *)
Definition write (data : bytes) (p : QProcess) : QProcess :=
  match state p with
  | NotRunning => p
  | _ => mkProcess (state p) (launched p) (child_stdin p ++ data)
           (stdout_buffer p) (stderr_buffer p)
  end.

(** [QProcess.readAllStandardOutput().data()] *)
Definition readAllStandardOutput (p : QProcess) : bytes * QProcess :=
  (stdout_buffer p,
   mkProcess (state p) (launched p) (child_stdin p) [] (stderr_buffer p)).

(** [QProcess.readAllStandardError().data()] *)
Definition readAllStandardError (p : QProcess) : bytes * QProcess :=
  (stderr_buffer p,
   mkProcess (state p) (launched p) (child_stdin p) (stdout_buffer p) []).

(** What happens to the object between two calls of the editor: the process
    comes up, it exits, or a chunk of its output arrives. *)
Definition started (p : QProcess) : QProcess :=
  match state p with
  | Starting => mkProcess Running (launched p) (child_stdin p)
                  (stdout_buffer p) (stderr_buffer p)
  | _ => p
  end.

Definition finished (p : QProcess) : QProcess :=
  mkProcess NotRunning (launched p) (child_stdin p)
    (stdout_buffer p) (stderr_buffer p).

Definition receive_stdout (chunk : bytes) (p : QProcess) : QProcess :=
  mkProcess (state p) (launched p) (child_stdin p)
    (stdout_buffer p ++ chunk) (stderr_buffer p).

Definition receive_stderr (chunk : bytes) (p : QProcess) : QProcess :=
  mkProcess (state p) (launched p) (child_stdin p)
    (stdout_buffer p) (stderr_buffer p ++ chunk).

End Qt.

Module Terminal.

(** A [TerminalWidget]: its process, the paragraphs appended to the
    read-only [output] view and the text of the [input] box. *)
Record TerminalWidget : Type := mkTerminal {
  process : Qt.QProcess;
  output : list (list N);
  input : list N;
}.

(** [TerminalWidget.__init__] *)
Definition init : TerminalWidget := mkTerminal Qt.new_process [] [].

Definition set_process (p : Qt.QProcess) : M TerminalWidget unit :=
  modify (fun self => mkTerminal p (output self) (input self)).

(** [self.output.append(data)] *)
Definition output_append (data : str) : M TerminalWidget unit :=
  modify (fun self => mkTerminal (process self) (output self ++ [data]) (input self)).

(** [self.input.clear()] *)
Definition input_clear : M TerminalWidget unit :=
  modify (fun self => mkTerminal (process self) (output self) []).

(** [s.encode('utf-8')] and [b.decode()] as computations. *)
Definition encode (s : str) : M TerminalWidget bytes := fun self => (Py.encode s, self).
Definition decode (b : bytes) : M TerminalWidget str := fun self => (Py.decode b, self).

(** [TerminalWidget.handle_keypress], [key] being [event.key()]. *)
Definition handle_keypress (key : Z) : M TerminalWidget unit :=
  if (key =? Qt.Key_Return)%Z then
    self <- get ;;
    let command := Py.strip (input self) in
    input_clear ;;
    if Py.truthy command then
      data <- encode (command ++ [10]) ;;
      self <- get ;;
      set_process (Qt.write data (process self))
    else ret tt
  else ret tt.

(** [TerminalWidget.start], on a machine that creates the process of the
    shell or does not. *)
Definition start (shell : str) (created : bool) : M TerminalWidget unit :=
  self <- get ;;
  set_process (Qt.start shell created (process self)).

(** [TerminalWidget.on_stdout] *)
Definition on_stdout : M TerminalWidget unit :=
  self <- get ;;
  let '(raw, p) := Qt.readAllStandardOutput (process self) in
  set_process p ;;
  data <- decode raw ;;
  output_append data.

(** [TerminalWidget.on_stderr] *)
Definition on_stderr : M TerminalWidget unit :=
  self <- get ;;
  let '(raw, p) := Qt.readAllStandardError (process self) in
  set_process p ;;
  data <- decode raw ;;
  output_append data.

End Terminal.

(* ===================================================================== *)
(** ** The documented behaviour, for comparison *)
(* ===================================================================== *)

Module Spec.

(** The registry table of the specification: an extension and the command
    template bound to it, as a function of the script path. *)
Definition registry : list (list N * (list N -> list (list N))) :=
  [ (lit ".py", fun scriptPath => [lit "python"; scriptPath]);
    (lit ".bat", fun scriptPath => [lit "cmd.exe"; lit "/c"; scriptPath]);
    (lit ".ps1", fun scriptPath => [lit "powershell"; lit "-File"; scriptPath]) ].

(** The result of a run as the specification describes it. *)
Record RunResult : Type := mkRunResult {
  succeeded : bool;
  combinedOutput : list N;
}.

(** How the editor reports the result of a run: the "Execution Output"
    message box is the successful result, the "Execution Error" one the
    failed result. *)
Definition reported (e : Editor.event) : option RunResult :=
  match e with
  | Editor.QMessageBox_information title text =>
      if bool_decide (title = lit "Execution Output")
      then Some (mkRunResult true text) else None
  | Editor.QMessageBox_warning title text =>
      if bool_decide (title = lit "Execution Error")
      then Some (mkRunResult false text) else None
  | _ => None
  end.

End Spec.

(* ===================================================================== *)
(** ** Concrete machines and editors *)
(* ===================================================================== *)

Module Sample.

Import Editor.

Definition hello_py : list N := lit "C:\scripts\hello.py".
Definition build_bat : list N := lit "C:\scripts\build.bat".
Definition notes_txt : list N := lit "C:\scripts\notes.txt".
Definition amp_py : list N := lit "C:\scripts\a&calc.py".

(** A machine on which every file can be written and every launch gives a
    process that exits with the given return code and output. *)
Definition exits (returncode : Z) (output : str) : Platform :=
  mkPlatform (fun _ => None) (fun _ _ _ => Exited returncode output) [].

(** A machine on which no process can be created. *)
Definition no_process : Platform :=
  mkPlatform (fun _ => None)
    (fun _ _ _ => LaunchFailed (lit "[WinError 2] The system cannot find the file specified"))
    [].

(** An editor with one tab, on a given disk. *)
Definition editor (path text : str) (d : gmap (list N) (list N)) : World :=
  mkWorld [mkTab (Some path) text] 0 d [].

(** A terminal whose shell is running, and one whose shell has exited. *)
Definition running : Terminal.TerminalWidget :=
  Terminal.mkTerminal (Qt.started (Qt.start (lit "cmd.exe") true Qt.new_process)) [] [].

Definition exited : Terminal.TerminalWidget :=
  Terminal.mkTerminal (Qt.finished (Terminal.process running)) [] (lit "dir").

End Sample.

(* ===================================================================== *)
(** ** The rest of the window: status bar, tabs, theme *)
(* ===================================================================== *)

Module Window.

Import Editor.

(** [SUPPORTED_EXTENSIONS.items()], in the order of insertion. *)
Definition SUPPORTED_EXTENSIONS_items : list (list N * list N) :=
  [ (lit ".py", lit "Python"); (lit ".bat", lit "Batch");
    (lit ".ps1", lit "PowerShell") ].

(** The message boxes among some events. *)
Definition message_boxes (evs : list event) : list event :=
  omap (fun e => match e with
                 | QMessageBox_warning _ _ | QMessageBox_information _ _ => Some e
                 | _ => None
                 end) evs.

(** [list(SUPPORTED_EXTENSIONS.values())], the items of the language combo
    box. *)
Definition language_combo_items : list (list N) :=
  snd <$> SUPPORTED_EXTENSIONS_items.

(** [ScriptEditor.detect_language]; the simple editor writes the same
    expression where it needs it. *)
Definition detect_language (file_path : str) : list N :=
  let ext := (Py.splitext file_path).2 in
  default (lit "Unknown") (SUPPORTED_EXTENSIONS !! ext).

(** [next(k for k, v in SUPPORTED_EXTENSIONS.items() if v == lang)] of
    [new_file]: the first key bound to the language, [None] when the
    generator is exhausted and [next] raises [StopIteration]. *)
Definition new_file_ext (lang : str) : option (list N) :=
  fst <$> find (fun kv => bool_decide (kv.2 = lang)) SUPPORTED_EXTENSIONS_items.

(** The file name that [new_file] proposes in its dialog,
    [f"untitled{ext}"]. *)
Definition new_file_default_name (ext : str) : list N := lit "untitled" ++ ext.

(** A colour, as red, green and blue; [Qt.black] and [Qt.white]. *)
Definition black : N * N * N := (0, 0, 0).
Definition white : N * N * N := (255, 255, 255).

(** The four roles that the editor sets in a fresh [QPalette()]; the other
    roles keep the values of the fresh palette. *)
Record QPalette : Type := mkPalette {
  role_Window : N * N * N;
  role_WindowText : N * N * N;
  role_Base : N * N * N;
  role_Text : N * N * N;
}.

(** The window: the editor and its disk, the text of the language label,
    the messages shown in the status bar, and the theme ([dark_mode] and
    the palette of the application). *)
Record Window : Type := mkWindow {
  world : World;
  language_label : list N;
  status_messages : list (list N);
  dark_mode : bool;
  app_palette : QPalette;
}.

(** A computation of the editor, run in the window. *)
Definition lift {A} (m : M World A) : M Window A :=
  fun win =>
    let '(r, w') := m (world win) in
    (r, mkWindow w' (language_label win) (status_messages win)
          (dark_mode win) (app_palette win)).

(** [self.language_label.setText(text)] *)
Definition language_label_setText (text : str) : M Window unit :=
  modify (fun win =>
    mkWindow (world win) text (status_messages win) (dark_mode win) (app_palette win)).

(** [self.status.showMessage(text, 3000)] *)
Definition status_showMessage (text : str) : M Window unit :=
  modify (fun win =>
    mkWindow (world win) (language_label win) (status_messages win ++ [text])
      (dark_mode win) (app_palette win)).

(** [app.setPalette(palette)] *)
Definition setPalette (p : QPalette) : M Window unit :=
  modify (fun win =>
    mkWindow (world win) (language_label win) (status_messages win) (dark_mode win) p).

Definition set_dark_mode (b : bool) : M Window unit :=
  modify (fun win =>
    mkWindow (world win) (language_label win) (status_messages win) b (app_palette win)).

(** [ScriptEditor.change_language] *)
Definition change_language (lang : str) : M Window unit :=
  language_label_setText (lit "Language: " ++ lang).

(** [ScriptEditor.update_status] *)
Definition update_status : M Window unit :=
  tab <- lift current_tab ;;
  match tab with
  | None => language_label_setText (lit "Language: ")
  | Some tab =>
      t <- lift (get_tab tab) ;;
      if has_path (file_path t) then
        language_label_setText
          (lit "Language: " ++ detect_language (default [] (file_path t)))
      else language_label_setText (lit "Language: ")
  end.

(** [QTabWidget.removeTab(index)]: the page goes; when it was the current
    one, the page to its right becomes current, or the one to its left when
    there is none to the right, and [currentChanged] is emitted, to which
    the constructor has connected [update_status]. *)
Definition removeTab (index : Z) : M Window unit :=
  win <- get ;;
  let w := world win in
  if (0 <=? index)%Z && (index <? Z.of_nat (length (tabs w)))%Z then
    let tabs' := delete (Z.to_nat index) (tabs w) in
    let cur := currentIndex w in
    let cur' :=
      if (index =? cur)%Z
      then (if (index =? Z.of_nat (length tabs'))%Z then index - 1 else index)%Z
      else if (index <? cur)%Z then (cur - 1)%Z else cur in
    lift (modify (fun w => mkWorld tabs' cur' (disk w) (events w))) ;;
    if (index =? cur)%Z then update_status else ret tt
  else ret tt.

(** [ScriptEditor.close_tab] *)
Definition close_tab : M Window unit :=
  win <- get ;;
  let idx := currentIndex (world win) in
  if (0 <=? idx)%Z then removeTab idx else ret tt.

(** [ScriptEditor.set_light_palette] and [ScriptEditor.set_dark_palette] *)
Definition light_palette : QPalette :=
  mkPalette (240, 240, 240) black white black.

Definition dark_palette : QPalette :=
  mkPalette (53, 53, 53) white (35, 35, 35) white.

Definition set_light_palette : M Window unit := setPalette light_palette.

Definition set_dark_palette : M Window unit := setPalette dark_palette.

(** [ScriptEditor.init_theme] *)
Definition init_theme : M Window unit :=
  set_dark_mode false ;; set_light_palette.

(** [ScriptEditor.toggle_theme] *)
Definition toggle_theme : M Window unit :=
  win <- get ;;
  set_dark_mode (negb (dark_mode win)) ;;
  win <- get ;;
  if dark_mode win then set_dark_palette else set_light_palette.

(** [n] presses of the "Toggle Theme" action. *)
Fixpoint toggles (n : nat) : M Window unit :=
  match n with
  | O => ret tt
  | S n' => toggle_theme ;; toggles n'
  end.

Section Save.

Context (os : Platform).

(** [ScriptEditor.save_file] *)
Definition save_file : M Window unit :=
  tab <- lift current_tab ;;
  match tab with
  | None => ret tt
  | Some tab =>
      saved <- lift (save os tab) ;;
      if saved then status_showMessage (lit "File saved!") else ret tt
  end.

End Save.

End Window.

(* ===================================================================== *)
(** ** The terminal in the event loop *)
(* ===================================================================== *)

Module EventLoop.

Import Terminal.

(** Key events reaching the input box one after the other; the constructor
    has made [handle_keypress] its [keyPressEvent]. *)
Fixpoint press_keys (keys : list Z) : M TerminalWidget unit :=
  match keys with
  | [] => ret tt
  | key :: keys' => handle_keypress key ;; press_keys keys'
  end.

(** A chunk of standard output arrives: [readyReadStandardOutput] is
    emitted, to which the constructor has connected [on_stdout]. *)
Definition stdout_arrives (chunk : bytes) : M TerminalWidget unit :=
  self <- get ;;
  set_process (Qt.receive_stdout chunk (process self)) ;;
  on_stdout.

(** The same for standard error and [on_stderr]. *)
Definition stderr_arrives (chunk : bytes) : M TerminalWidget unit :=
  self <- get ;;
  set_process (Qt.receive_stderr chunk (process self)) ;;
  on_stderr.

(** Chunks of standard output arriving one after the other, each read
    before the next arrives. *)
Fixpoint stdout_stream (chunks : list (list N)) : M TerminalWidget unit :=
  match chunks with
  | [] => ret tt
  | chunk :: chunks' => stdout_arrives chunk ;; stdout_stream chunks'
  end.

End EventLoop.

(** More machines and editors. *)
Module Cases.

Import Editor.

(** A machine on which no file can be opened for writing. *)
Definition read_only : Platform :=
  mkPlatform (fun _ => Some (lit "[Errno 13] Permission denied"))
    (fun _ _ _ => Exited 0 []) [].

(** A machine on which every process exits with the given return code,
    having written bytes that are not text. *)
Definition undecodable (returncode : Z) : Platform :=
  mkPlatform (fun _ => None) (fun _ _ _ => ExitedUndecodable returncode) [].

(** A machine whose "Save Script" dialog answers with a path, and one whose
    dialog is cancelled. *)
Definition dialog_answers (path : str) : Platform :=
  mkPlatform (fun _ => None) (fun _ _ _ => Exited 0 []) path.

Definition dialog_cancelled : Platform := dialog_answers [].

(** An editor with one tab that has no file yet. *)
Definition untitled (text : str) (d : gmap (list N) (list N)) : World :=
  mkWorld [mkTab None text] 0 d [].

(** A window around an editor, with the light theme. *)
Definition window (w : World) : Window.Window :=
  Window.mkWindow w (lit "Language: ") [] false Window.light_palette.

(** An editor with two tabs, the second one current. *)
Definition two_tabs : World :=
  mkWorld [mkTab (Some Sample.hello_py) (lit "print(1)");
           mkTab (Some Sample.notes_txt) (lit "to do")] 1
    {[Sample.notes_txt := lit "done"]} [].

End Cases.

(* ===================================================================== *)
(** ** Running a script *)
(* ===================================================================== *)

Section RunFacts.

Import Editor.
Context (os : Platform).

Lemma current_tab_current w t :
  current w = Some t ->
  current_tab w = (Py.Return (Some (Z.to_nat (currentIndex w))), w)
  /\ tabs w !!! Z.to_nat (currentIndex w) = t.
Proof.
  unfold current, current_tab, bind, get, ret.
  destruct (currentIndex w <? 0)%Z; [discriminate|].
  intros H. rewrite H. split; [reflexivity|].
  by apply list_lookup_total_correct.
Qed.

Lemma current_tab_none w :
  current w = None -> current_tab w = (Py.Return None, w).
Proof.
  unfold current, current_tab, bind, get, ret.
  destruct (currentIndex w <? 0)%Z; [reflexivity|].
  by intros ->.
Qed.

Lemma has_path_true p path :
  p = Some path -> path <> [] -> has_path p = true.
Proof. intros -> Hne. by destruct path. Qed.

Ltac enter_run Hcur Hpath Hne :=
  unfold run_script, bind at 1;
  destruct (current_tab_current _ _ Hcur) as [-> Htab];
  unfold get_tab at 1, bind at 1, bind at 1, get at 1, ret at 1;
  rewrite Htab, (has_path_true _ _ Hpath Hne), Hpath; cbn [negb from_option id].

(** Without a current tab, or with one that has no file, the run only warns. *)
Lemma run_script_unsaved w :
  match current w with
  | Some t => has_path (file_path t) = false
  | None => True
  end ->
  run_script os w = (Py.Return tt, add_events w [unsaved_warning]).
Proof.
  destruct (current w) as [t|] eqn:Hcur; intros H.
  - unfold run_script, bind at 1.
    destruct (current_tab_current _ _ Hcur) as [-> Htab].
    unfold get_tab at 1, bind at 1, bind at 1, get at 1, ret at 1.
    rewrite Htab, H. reflexivity.
  - unfold run_script, bind at 1. rewrite (current_tab_none _ Hcur). reflexivity.
Qed.

(** The [else] branch: a warning and nothing else. *)
Lemma run_script_else w t path :
  current w = Some t -> file_path t = Some path -> path <> [] ->
  run_script_cmd path = None ->
  run_script os w = (Py.Return tt, add_events w [unsupported_warning]).
Proof.
  intros Hcur Hpath Hne Hcmd. enter_run Hcur Hpath Hne.
  rewrite Hcmd. reflexivity.
Qed.

(** [save] on a tab that has a path, when the file cannot be opened. *)
Lemma run_script_open_fails w t path cmd strerror :
  current w = Some t -> file_path t = Some path -> path <> [] ->
  run_script_cmd path = Some cmd ->
  open_for_writing os path = Some strerror ->
  run_script os w = (Py.Raise (Py.OSError strerror), w).
Proof.
  intros Hcur Hpath Hne Hcmd Hopen. enter_run Hcur Hpath Hne.
  rewrite Hcmd. unfold bind at 1, save, bind at 1, get_tab at 1, bind at 1, get at 1, ret at 1.
  rewrite Htab, (has_path_true _ _ Hpath Hne). cbn [negb].
  unfold bind at 1, ret at 1, bind at 1, get_tab at 1, bind at 1, get at 1, ret at 1.
  rewrite Htab, (has_path_true _ _ Hpath Hne), Hpath. cbn [from_option id].
  unfold bind at 1, write_text. rewrite Hopen. reflexivity.
Qed.

(** The run of a saved tab with a supported extension, once the buffer has
    been written: the file holds the buffer, the command is launched through
    the shell, and the outcome of the launch decides the rest. *)
Lemma run_script_launch w t path cmd b :
  current w = Some t -> file_path t = Some path -> path <> [] ->
  run_script_cmd path = Some cmd ->
  open_for_writing os path = None ->
  Py.utf8_encode (toPlainText t) = Some b ->
  let text := toPlainText t in
  let w1 := with_file w path text in
  run_script os w =
    match create_process os cmd true (disk w1) with
    | LaunchFailed strerror =>
        (Py.Raise (Py.OSError strerror),
         add_events w1 [FileWritten path text; Popen cmd true])
    | Exited returncode output =>
        (Py.Return tt,
         add_events w1
           [FileWritten path text; Popen cmd true;
            if (returncode =? 0)%Z
            then QMessageBox_information (lit "Execution Output") output
            else QMessageBox_warning (lit "Execution Error") output])
    | ExitedUndecodable _ =>
        (Py.Raise Py.UnicodeDecodeError,
         add_events w1 [FileWritten path text; Popen cmd true])
    end.
Proof.
  intros Hcur Hpath Hne Hcmd Hopen Henc text w1. enter_run Hcur Hpath Hne.
  rewrite Hcmd. unfold bind at 1, save, bind at 1, get_tab at 1, bind at 1, get at 1, ret at 1.
  rewrite Htab, (has_path_true _ _ Hpath Hne). cbn [negb].
  unfold bind at 1, ret at 1, bind at 1, get_tab at 1, bind at 1, get at 1, ret at 1.
  rewrite Htab, (has_path_true _ _ Hpath Hne), Hpath. cbn [from_option id].
  unfold bind at 1, write_text. rewrite Hopen, Henc.
  unfold try_except, check_output, bind, get, set_disk, log, modify, ret, raise.
  cbn [disk tabs currentIndex events].
  rewrite insert_insert_eq.
  subst w1 text. unfold with_file, add_events. cbn [disk tabs currentIndex events].
  destruct (create_process os cmd true _) as [strerror|returncode output|returncode].
  - rewrite <- !app_assoc. reflexivity.
  - destruct (returncode =? 0)%Z; cbn [disk tabs currentIndex events];
      rewrite <- !app_assoc; reflexivity.
  - rewrite <- !app_assoc. reflexivity.
Qed.

(** [save] on a tab that has a path, when the buffer cannot be encoded: the
    file has been opened, and is left empty. *)
Lemma run_script_encode_fails w t path cmd :
  current w = Some t -> file_path t = Some path -> path <> [] ->
  run_script_cmd path = Some cmd ->
  open_for_writing os path = None ->
  Py.utf8_encode (toPlainText t) = None ->
  run_script os w = (Py.Raise Py.UnicodeEncodeError, with_file w path []).
Proof.
  intros Hcur Hpath Hne Hcmd Hopen Henc. enter_run Hcur Hpath Hne.
  rewrite Hcmd. unfold bind at 1, save, bind at 1, get_tab at 1, bind at 1, get at 1, ret at 1.
  rewrite Htab, (has_path_true _ _ Hpath Hne). cbn [negb].
  unfold bind at 1, ret at 1, bind at 1, get_tab at 1, bind at 1, get at 1, ret at 1.
  rewrite Htab, (has_path_true _ _ Hpath Hne), Hpath. cbn [from_option id].
  unfold bind at 1, write_text. rewrite Hopen, Henc. reflexivity.
Qed.

Lemma save_goes_through_true path text :
  save_goes_through os path text = true ->
  open_for_writing os path = None /\ exists b, Py.utf8_encode text = Some b.
Proof.
  unfold save_goes_through.
  destruct (open_for_writing os path); [discriminate|].
  destruct (Py.utf8_encode text) as [b|]; [|discriminate]. eauto.
Qed.

(** The events of a saved tab with a supported extension, whatever becomes
    of the save and of the launch: nothing when the save fails, and
    otherwise the write, the launch through the shell and at most one
    message box. *)
Lemma run_script_supported_events w t path cmd :
  current w = Some t -> file_path t = Some path -> path <> [] ->
  run_script_cmd path = Some cmd ->
  exists evs,
    events (run_script os w).2 = events w ++ evs
    /\ commands evs = (if save_goes_through os path (toPlainText t) then [cmd] else [])
    /\ shell_launches evs = commands evs.
Proof.
  intros Hcur Hpath Hne Hcmd. unfold save_goes_through.
  destruct (open_for_writing os path) as [strerror|] eqn:Hopen.
  { rewrite (run_script_open_fails w t path cmd strerror Hcur Hpath Hne Hcmd Hopen).
    exists []. by rewrite app_nil_r. }
  destruct (Py.utf8_encode (toPlainText t)) as [b|] eqn:Henc.
  - rewrite (run_script_launch w t path cmd b Hcur Hpath Hne Hcmd Hopen Henc).
    destruct (create_process os _ _ _) as [|rc out|]; [|destruct (rc =? 0)%Z|];
      eexists; (split; [reflexivity|]); split; reflexivity.
  - rewrite (run_script_encode_fails w t path cmd Hcur Hpath Hne Hcmd Hopen Henc).
    exists []. by rewrite app_nil_r.
Qed.

(** Whatever the editor and the machine, a process that [run_script]
    launches is launched through the shell. *)
Lemma run_script_launches_through_shell w :
  exists evs,
    events (run_script os w).2 = events w ++ evs
    /\ shell_launches evs = commands evs.
Proof.
  destruct (current w) as [t|] eqn:Hcur.
  2: { rewrite run_script_unsaved by (by rewrite Hcur). by eexists. }
  destruct (has_path (file_path t)) eqn:Hp.
  2: { rewrite run_script_unsaved by (by rewrite Hcur). by eexists. }
  destruct (file_path t) as [path|] eqn:Hpath; [|discriminate].
  assert (path <> []) as Hne by (by destruct path).
  destruct (run_script_cmd path) as [cmd|] eqn:Hcmd.
  - destruct (run_script_supported_events w t path cmd Hcur Hpath Hne Hcmd)
      as (evs & Hev & _ & Hsh). eauto.
  - rewrite (run_script_else w t path Hcur Hpath Hne Hcmd). by eexists.
Qed.

End RunFacts.

(** The branch on the extension agrees with [SUPPORTED_EXTENSIONS]: the
    [else] branch is taken exactly for the extensions that are not a key. *)
Lemma run_script_cmd_supported path :
  Editor.run_script_cmd path = None <->
  Editor.SUPPORTED_EXTENSIONS !! (Py.splitext path).2 = None.
Proof.
  unfold Editor.run_script_cmd, Editor.SUPPORTED_EXTENSIONS.
  repeat case_bool_decide; split; try discriminate; try reflexivity.
  - intros Hl. by rewrite H in Hl.
  - intros Hl. by rewrite H0 in Hl.
  - intros Hl. by rewrite H1 in Hl.
  - intros _. rewrite !lookup_insert_ne by congruence.
    apply lookup_singleton_ne. congruence.
Qed.

(** The branch on the extension builds the command of the row of the
    registry table that has this extension. *)
Lemma run_script_cmd_row path row :
  row ∈ Spec.registry -> (Py.splitext path).2 = row.1 ->
  Editor.run_script_cmd path = Some (row.2 path).
Proof.
  unfold Spec.registry, Editor.run_script_cmd. intros Hrow ->.
  repeat (apply elem_of_cons in Hrow as [->|Hrow]); [reflexivity..|].
  by apply elem_of_nil in Hrow.
Qed.

Lemma run_script_cmd_no_row path :
  (forall row, row ∈ Spec.registry -> (Py.splitext path).2 <> row.1) ->
  Editor.run_script_cmd path = None.
Proof.
  unfold Spec.registry, Editor.run_script_cmd. intros Hrow.
  repeat case_bool_decide; try reflexivity; exfalso.
  - eapply (Hrow (_, _)); [|eassumption]. left.
  - eapply (Hrow (_, _)); [|eassumption]. right; left.
  - eapply (Hrow (_, _)); [|eassumption]. right; right; left.
Qed.

(** ** The claims about [run_script] *)

(** C1.  On a tab with a file, each extension of the registry table makes the
    run launch exactly the command of its row ([python <path>],
    [cmd.exe /c <path>], [powershell -File <path>]), once, when the save
    before the run goes through, and nothing when it does not; an extension
    outside the table makes the run end with the "Unsupported script type!"
    warning as its only effect, so that no process is launched. *)
Theorem run_script_resolves_interpreter
    (os : Editor.Platform) (w : Editor.World) (t : Editor.ScriptTab) (path : list N) :
  Editor.current w = Some t ->
  Editor.file_path t = Some path ->
  Py.truthy path = true ->
  let ext := (Py.splitext path).2 in
  let '(r, w') := Editor.run_script os w in
  (forall row, row ∈ Spec.registry -> ext = row.1 ->
     exists evs, Editor.events w' = Editor.events w ++ evs
       /\ Editor.commands evs =
          (if Editor.save_goes_through os path (Editor.toPlainText t)
           then [row.2 path] else []))
  /\ ((forall row, row ∈ Spec.registry -> ext <> row.1) ->
      r = Py.Return tt
      /\ w' = Editor.add_events w [Editor.unsupported_warning]
      /\ Editor.commands (Editor.events w') = Editor.commands (Editor.events w)).
Proof.
  intros Hcur Hpath Hne ext.
  assert (path <> []) as Hne' by (by destruct path).
  destruct (Editor.run_script os w) as [r w'] eqn:Hrun. split.
  - intros row Hrow Hext.
    pose proof (run_script_cmd_row path row Hrow Hext) as Hcmd.
    destruct (run_script_supported_events os w t path _ Hcur Hpath Hne' Hcmd)
      as (evs & Hev & Hc & _).
    rewrite Hrun in Hev. eauto.
  - intros Hrow.
    rewrite (run_script_else os w t path Hcur Hpath Hne'
               (run_script_cmd_no_row path Hrow)) in Hrun.
    injection Hrun as <- <-. repeat split.
    unfold Editor.commands, Editor.add_events. cbn [Editor.events].
    rewrite omap_app. apply app_nil_r.
Qed.

(** A batch file on a machine where the launch succeeds. *)
Lemma run_script_resolves_interpreter_witness :
  Editor.current (Sample.editor Sample.build_bat (lit "echo hi") ∅)
    = Some (Editor.mkTab (Some Sample.build_bat) (lit "echo hi"))
  /\ Py.truthy Sample.build_bat = true
  /\ (Py.splitext Sample.build_bat).2 = lit ".bat"
  /\ Editor.commands
       (Editor.events
          (Editor.run_script (Sample.exits 0 (lit "hi"))
             (Sample.editor Sample.build_bat (lit "echo hi") ∅)).2)
     = [[lit "cmd.exe"; lit "/c"; Sample.build_bat]].
Proof.
  split; [reflexivity|]. split; [reflexivity|]. split; [reflexivity|].
  pose proof (run_script_resolves_interpreter (Sample.exits 0 (lit "hi"))
                (Sample.editor Sample.build_bat (lit "echo hi") ∅)
                _ Sample.build_bat eq_refl eq_refl eq_refl) as H.
  cbv zeta in H.
  destruct (Editor.run_script _ _) as [r w']. cbn [snd].
  destruct H as [H _].
  destruct (H (lit ".bat", fun p => [lit "cmd.exe"; lit "/c"; p])) as (evs & Hev & Hc).
  - right; left.
  - reflexivity.
  - rewrite Hev. exact Hc.
Defined.

(** C2, as stated, fails: the script exits, with status 0 or with status 1,
    having written bytes that are not text.  The run raises
    [UnicodeDecodeError] and reports no result at all. *)
Lemma run_script_undecodable_output_escapes :
  (let '(r, w') :=
     Editor.run_script (Cases.undecodable 0)
       (Sample.editor Sample.hello_py (lit "print(1)") ∅) in
   r = Py.Raise Py.UnicodeDecodeError
   /\ Editor.commands (Editor.events w') = [[lit "python"; Sample.hello_py]]
   /\ omap Spec.reported (Editor.events w') = [])
  /\ (let '(r, w') :=
        Editor.run_script (Cases.undecodable 1)
          (Sample.editor Sample.hello_py (lit "print(1)") ∅) in
      r = Py.Raise Py.UnicodeDecodeError
      /\ Editor.commands (Editor.events w') = [[lit "python"; Sample.hello_py]]
      /\ omap Spec.reported (Editor.events w') = []).
Proof. vm_compute. repeat split. Qed.

(** C2, amended.  When the run of a saved script launches its process and
    the process exits having written output that decodes as text, the run
    reports exactly one result, classified by the return code: return code
    0 gives the successful result, any other return code the failed one,
    and in both the result carries the captured output. *)
Theorem run_script_classifies_exit_code
    (os : Editor.Platform) (w : Editor.World) (t : Editor.ScriptTab)
    (path : list N) (cmd : list (list N)) (returncode : Z) (output : list N) :
  Editor.current w = Some t ->
  Editor.file_path t = Some path ->
  Py.truthy path = true ->
  Editor.run_script_cmd path = Some cmd ->
  Editor.save_goes_through os path (Editor.toPlainText t) = true ->
  Editor.create_process os cmd true (<[path := Editor.toPlainText t]> (Editor.disk w))
    = Editor.Exited returncode output ->
  let '(r, w') := Editor.run_script os w in
  r = Py.Return tt
  /\ exists evs, Editor.events w' = Editor.events w ++ evs
     /\ Editor.commands evs = [cmd]
     /\ omap Spec.reported evs
        = [Spec.mkRunResult (bool_decide (returncode = 0%Z)) output].
Proof.
  intros Hcur Hpath Hne Hcmd Hsave Hexit.
  destruct (save_goes_through_true os _ _ Hsave) as [Hopen [b Henc]].
  assert (path <> []) as Hne' by (by destruct path).
  rewrite (run_script_launch os w t path cmd b Hcur Hpath Hne' Hcmd Hopen Henc).
  cbn [Editor.with_file Editor.disk]. rewrite Hexit.
  split; [reflexivity|]. eexists. split; [reflexivity|].
  destruct (Z.eqb_spec returncode 0) as [->|Hrc].
  - split; reflexivity.
  - rewrite bool_decide_eq_false_2 by done. split; reflexivity.
Qed.

(** A Python script that exits with status 1. *)
Lemma run_script_classifies_exit_code_witness :
  Editor.run_script_cmd Sample.hello_py = Some [lit "python"; Sample.hello_py]
  /\ Editor.create_process (Sample.exits 1 (lit "Traceback")) [lit "python"; Sample.hello_py] true
       (<[Sample.hello_py := lit "raise SystemExit(1)"]> ∅)
     = Editor.Exited 1 (lit "Traceback")
  /\ let '(r, w') :=
       Editor.run_script (Sample.exits 1 (lit "Traceback"))
         (Sample.editor Sample.hello_py (lit "raise SystemExit(1)") ∅) in
     r = Py.Return tt
     /\ exists evs, Editor.events w' = [] ++ evs
        /\ Editor.commands evs = [[lit "python"; Sample.hello_py]]
        /\ omap Spec.reported evs = [Spec.mkRunResult false (lit "Traceback")].
Proof.
  split; [reflexivity|]. split; [reflexivity|].
  apply (run_script_classifies_exit_code (Sample.exits 1 (lit "Traceback"))
           (Sample.editor Sample.hello_py (lit "raise SystemExit(1)") ∅)
           (Editor.mkTab (Some Sample.hello_py) (lit "raise SystemExit(1)"))
           Sample.hello_py [lit "python"; Sample.hello_py] 1 (lit "Traceback"));
    reflexivity.
Defined.

(** C10.  On a tab whose extension is not a key of [SUPPORTED_EXTENSIONS],
    the run returns from the unsupported-type branch: its only effect is the
    warning, before the save, so no file is written and the disk and the
    tabs are as they were. *)
Theorem run_script_unsupported_writes_nothing
    (os : Editor.Platform) (w : Editor.World) (t : Editor.ScriptTab) (path : list N) :
  Editor.current w = Some t ->
  Editor.file_path t = Some path ->
  Py.truthy path = true ->
  Editor.SUPPORTED_EXTENSIONS !! (Py.splitext path).2 = None ->
  let '(r, w') := Editor.run_script os w in
  r = Py.Return tt
  /\ Editor.disk w' = Editor.disk w
  /\ Editor.tabs w' = Editor.tabs w
  /\ exists evs, Editor.events w' = Editor.events w ++ evs
     /\ Editor.writes evs = [] /\ Editor.commands evs = []
     /\ evs = [Editor.unsupported_warning].
Proof.
  intros Hcur Hpath Hne Hext.
  assert (path <> []) as Hne' by (by destruct path).
  apply run_script_cmd_supported in Hext.
  rewrite (run_script_else os w t path Hcur Hpath Hne' Hext).
  repeat (split; [reflexivity|]). eexists. repeat (split; [reflexivity|]). reflexivity.
Qed.

(** A text file whose buffer differs from the file on the disk. *)
Lemma run_script_unsupported_writes_nothing_witness :
  Editor.SUPPORTED_EXTENSIONS !! (Py.splitext Sample.notes_txt).2 = None
  /\ let '(r, w') :=
       Editor.run_script (Sample.exits 0 [])
         (Sample.editor Sample.notes_txt (lit "new") {[Sample.notes_txt := lit "old"]}) in
     r = Py.Return tt
     /\ Editor.disk w' = {[Sample.notes_txt := lit "old"]}
     /\ Editor.tabs w' = [Editor.mkTab (Some Sample.notes_txt) (lit "new")]
     /\ exists evs, Editor.events w' = [] ++ evs
        /\ Editor.writes evs = [] /\ Editor.commands evs = []
        /\ evs = [Editor.unsupported_warning].
Proof.
  split; [reflexivity|].
  exact (run_script_unsupported_writes_nothing (Sample.exits 0 [])
           (Sample.editor Sample.notes_txt (lit "new") {[Sample.notes_txt := lit "old"]})
           (Editor.mkTab (Some Sample.notes_txt) (lit "new")) Sample.notes_txt
           eq_refl eq_refl eq_refl eq_refl).
Defined.







(** C4 at a path with an ampersand: the launch goes through the shell, and
    the command line that the shell is given to interpret has the path
    unquoted, ampersand included. *)
Theorem run_script_path_goes_through_shell :
  let '(r, w') :=
    Editor.run_script (Sample.exits 0 [])
      (Sample.editor Sample.amp_py (lit "print(1)") ∅) in
  Editor.shell_launches (Editor.events w') = [[lit "python"; Sample.amp_py]]
  /\ Py.list2cmdline [lit "python"; Sample.amp_py] = lit "python C:\scripts\a&calc.py".
Proof. vm_compute. repeat split. Qed.

(** C5 on a machine that cannot create the process: the [OSError] of the
    launch leaves [run_script] as an exception, and no result is reported. *)
Theorem run_script_launch_failure_escapes :
  let '(r, w') :=
    Editor.run_script Sample.no_process
      (Sample.editor Sample.hello_py (lit "print(1)") ∅) in
  r = Py.Raise (Py.OSError (lit "[WinError 2] The system cannot find the file specified"))
  /\ Editor.commands (Editor.events w') = [[lit "python"; Sample.hello_py]]
  /\ omap Spec.reported (Editor.events w') = [].
Proof. vm_compute. repeat split. Qed.

(* ===================================================================== *)
(** ** UTF-8 and [strip] *)
(* ===================================================================== *)

Section TextFacts.

Import Py.

(** Settles the comparisons of the goal, by arithmetic where the outcome is
    forced and by cases where it is not. *)
Ltac settle_cmp :=
  repeat match goal with
  | |- context [?a <? ?b] =>
      first [ rewrite (proj2 (N.ltb_lt a b)) by lia
            | rewrite (proj2 (N.ltb_ge a b)) by lia
            | destruct (N.ltb_spec a b) ]
  | |- context [?a <=? ?b] =>
      first [ rewrite (proj2 (N.leb_le a b)) by lia
            | rewrite (proj2 (N.leb_gt a b)) by lia
            | destruct (N.leb_spec a b) ]
  | |- context [?a =? ?b] =>
      first [ rewrite (proj2 (N.eqb_eq a b)) by lia
            | rewrite (proj2 (N.eqb_neq a b)) by lia
            | destruct (N.eqb_spec a b) ]
  end.

Lemma split64 c : c = 64 * (c / 64) + c mod 64 /\ c mod 64 < 64.
Proof. split; [apply N.div_mod; lia | apply N.mod_lt; lia]. Qed.

(** Decoding reads back the code point that was encoded. *)
Lemma utf8_decode_code_point c b r :
  encode_code_point c = Some b ->
  utf8_decode (b ++ r) = cons c <$> utf8_decode r.
Proof.
  unfold encode_code_point, is_surrogate. intros H.
  destruct (N.ltb_spec c 0x80).
  { injection H as <-. cbn [app utf8_decode]. settle_cmp. done. }
  destruct (N.ltb_spec c 0x800).
  { injection H as <-. cbn [app utf8_decode].
    destruct (split64 c) as [E1 B1]. revert E1 B1.
    generalize (c / 64) (c mod 64). intros q r0 E1 B1.
    unfold is_continuation, between. settle_cmp; simpl; try lia.
    do 2 f_equal. lia. }
  destruct (N.ltb_spec c 0x10000).
  { destruct (N.leb_spec 0xD800 c); destruct (N.ltb_spec c 0xE000);
      simpl in H; try discriminate;
      injection H as <-; cbn [app utf8_decode];
      replace (c / 4096) with (c / 64 / 64) by (rewrite N.Div0.div_div; reflexivity);
      destruct (split64 c) as [E1 B1]; destruct (split64 (c / 64)) as [E2 B2];
      revert E1 B1 E2 B2;
      generalize (c / 64 / 64) ((c / 64) mod 64) (c mod 64);
      generalize (c / 64); intros q1 q2 r1 r0 E1 B1 E2 B2;
      unfold second_byte_ok, is_continuation, between;
      settle_cmp; simpl; try lia; do 2 f_equal; lia. }
  destruct (N.ltb_spec c 0x110000); [|discriminate].
  injection H as <-. cbn [app utf8_decode].
  replace (c / 262144) with (c / 64 / 64 / 64)
    by (rewrite !N.Div0.div_div; reflexivity).
  replace (c / 4096) with (c / 64 / 64) by (rewrite N.Div0.div_div; reflexivity).
  destruct (split64 c) as [E1 B1]. destruct (split64 (c / 64)) as [E2 B2].
  destruct (split64 (c / 64 / 64)) as [E3 B3]. revert E1 B1 E2 B2 E3 B3.
  generalize (c / 64 / 64 / 64) ((c / 64 / 64) mod 64) ((c / 64) mod 64) (c mod 64).
  generalize (c / 64 / 64). generalize (c / 64).
  intros q1 q2 q3 r2 r1 r0 E1 B1 E2 B2 E3 B3.
  unfold second_byte_ok, is_continuation, between.
  settle_cmp; simpl; try lia; do 2 f_equal; lia.
Qed.

Lemma utf8_decode_encode s b :
  utf8_encode s = Some b -> utf8_decode b = Some s.
Proof.
  revert b. induction s as [|c s IH]; intros b; cbn [utf8_encode].
  - by intros [= <-].
  - destruct (encode_code_point c) as [bc|] eqn:Hc; [|discriminate].
    destruct (utf8_encode s) as [bs|]; [|discriminate].
    intros [= <-]. rewrite (utf8_decode_code_point c bc bs Hc), (IH bs eq_refl).
    reflexivity.
Qed.

Lemma encode_code_point_scalar c :
  is_scalar c = true -> is_Some (encode_code_point c).
Proof.
  unfold is_scalar, encode_code_point. intros [Hlt Hs]%andb_prop.
  apply negb_true_iff in Hs. rewrite Hs, Hlt.
  repeat match goal with |- context [if ?x then _ else _] => destruct x end; by eexists.
Qed.

Lemma utf8_encode_well_formed s :
  well_formed s = true -> is_Some (utf8_encode s).
Proof.
  unfold well_formed. induction s as [|c s IH]; cbn [forallb utf8_encode].
  - by eexists.
  - intros [Hc Hs]%andb_prop.
    destruct (encode_code_point_scalar c Hc) as [bc ->].
    destruct (IH Hs) as [bs ->]. by eexists.
Qed.

Lemma utf8_encode_app s1 s2 b1 b2 :
  utf8_encode s1 = Some b1 -> utf8_encode s2 = Some b2 ->
  utf8_encode (s1 ++ s2) = Some (b1 ++ b2).
Proof.
  revert b1. induction s1 as [|c s1 IH]; intros b1; cbn [utf8_encode app].
  - by intros [= <-].
  - destruct (encode_code_point c) as [bc|]; [|discriminate].
    destruct (utf8_encode s1) as [bs|]; [|discriminate].
    intros [= <-] H2. rewrite (IH bs eq_refl H2), app_assoc. reflexivity.
Qed.

Lemma well_formed_lstrip s :
  well_formed s = true -> well_formed (lstrip s) = true.
Proof.
  unfold well_formed. induction s as [|c s IH]; [done|].
  cbn [lstrip]. destruct (isspace c); [|done].
  cbn [forallb]. intros [_ Hs]%andb_prop. by apply IH.
Qed.

Lemma well_formed_rev s :
  well_formed s = true -> well_formed (rev s) = true.
Proof.
  unfold well_formed. rewrite !forallb_forall. intros H c Hc.
  apply H. by apply in_rev.
Qed.

Lemma well_formed_strip s :
  well_formed s = true -> well_formed (strip s) = true.
Proof.
  intros H. unfold strip, rstrip.
  by apply well_formed_rev, well_formed_lstrip, well_formed_rev, well_formed_lstrip.
Qed.

(** The bytes of a command followed by a newline: those of the command and
    one byte 10. *)
Lemma encode_command_line command :
  well_formed command = true ->
  exists b, utf8_encode command = Some b
            /\ utf8_encode (command ++ [10]) = Some (b ++ [10]).
Proof.
  intros [b Hb]%utf8_encode_well_formed. exists b. split; [done|].
  by apply utf8_encode_app.
Qed.

End TextFacts.

(* ===================================================================== *)
(** ** The terminal *)
(* ===================================================================== *)

(** What [handle_keypress] does on the Return key, by the command that is
    left of the input after stripping. *)
Lemma handle_keypress_return (self : Terminal.TerminalWidget) :
  Terminal.handle_keypress Qt.Key_Return self =
    let command := Py.strip (Terminal.input self) in
    let cleared := Terminal.mkTerminal (Terminal.process self) (Terminal.output self) [] in
    if Py.truthy command then
      match Py.utf8_encode (command ++ [10]) with
      | Some data =>
          (Py.Return tt,
           Terminal.mkTerminal (Qt.write data (Terminal.process self))
             (Terminal.output self) [])
      | None => (Py.Raise Py.UnicodeEncodeError, cleared)
      end
    else (Py.Return tt, cleared).
Proof.
  unfold Terminal.handle_keypress. cbn [Z.eqb Qt.Key_Return Pos.eqb].
  unfold bind, get, Terminal.input_clear, modify, ret, Terminal.encode,
    Terminal.set_process, Py.encode.
  cbn [Terminal.input Terminal.process Terminal.output].
  destruct (Py.truthy _); [|reflexivity].
  destruct (Py.utf8_encode _); reflexivity.
Qed.

Lemma handle_keypress_other_key (key : Z) (self : Terminal.TerminalWidget) :
  key <> Qt.Key_Return ->
  Terminal.handle_keypress key self = (Py.Return tt, self).
Proof.
  intros Hk. unfold Terminal.handle_keypress.
  by destruct (Z.eqb_spec key Qt.Key_Return).
Qed.

Lemma write_not_running data p :
  Qt.state p = Qt.NotRunning -> Qt.write data p = p.
Proof. unfold Qt.write. by intros ->. Qed.

(** C7, as stated, fails: the shell has exited, the input box holds a letter
    and a lone surrogate, and Return is pressed.  The call raises
    [UnicodeEncodeError]. *)
Lemma handle_keypress_raises_without_process :
  let self :=
    Terminal.mkTerminal (Qt.finished (Terminal.process Sample.running)) []
      [0x61; 0xD800] in
  Qt.state (Terminal.process self) = Qt.NotRunning
  /\ (Terminal.handle_keypress Qt.Key_Return self).1 = Py.Raise Py.UnicodeEncodeError.
Proof. vm_compute. split; reflexivity. Qed.

(** C7, amended.  While the shell process is not running, a key press leaves
    the process object as it was: nothing is launched, nothing reaches the
    input of a process and the object stays not running; and when the input
    box holds no lone surrogate, the call returns without raising. *)
Theorem handle_keypress_without_process (key : Z) (self : Terminal.TerminalWidget) :
  Qt.state (Terminal.process self) = Qt.NotRunning ->
  let '(r, self') := Terminal.handle_keypress key self in
  Terminal.process self' = Terminal.process self
  /\ (Py.well_formed (Terminal.input self) = true -> r = Py.Return tt).
Proof.
  intros Hstate. destruct (Z.eq_dec key Qt.Key_Return) as [->|Hk].
  - rewrite handle_keypress_return. cbv zeta.
    destruct (Py.truthy _); [|by split].
    destruct (Py.utf8_encode (_ ++ _)) as [data|] eqn:Henc.
    + split; [|done]. by apply write_not_running.
    + split; [done|]. intros Hwf.
      destruct (encode_command_line _ (well_formed_strip _ Hwf)) as (b & _ & Hb).
      congruence.
  - rewrite (handle_keypress_other_key key self Hk). by split.
Qed.

(** The Return key, with a command in the input, after the shell has exited. *)
Lemma handle_keypress_without_process_witness :
  Qt.state (Terminal.process Sample.exited) = Qt.NotRunning
  /\ Py.well_formed (Terminal.input Sample.exited) = true
  /\ (Terminal.handle_keypress Qt.Key_Return Sample.exited).1 = Py.Return tt
  /\ Terminal.process (Terminal.handle_keypress Qt.Key_Return Sample.exited).2
     = Terminal.process Sample.exited.
Proof.
  split; [reflexivity|]. split; [reflexivity|].
  pose proof (handle_keypress_without_process Qt.Key_Return Sample.exited eq_refl) as H.
  destruct (Terminal.handle_keypress Qt.Key_Return Sample.exited) as [r self'].
  destruct H as [Hp Hr]. split; [exact (Hr eq_refl)|exact Hp].
Defined.

(** C8, as stated, fails: the shell is running, the input box holds a letter
    and a lone surrogate, which is not empty after stripping, and Return is
    pressed.  The call raises [UnicodeEncodeError] and nothing is written to
    the shell. *)
Lemma handle_keypress_writes_nothing_on_lone_surrogate :
  let self := Terminal.mkTerminal (Terminal.process Sample.running) [] [0x61; 0xD800] in
  Py.truthy (Py.strip (Terminal.input self)) = true
  /\ Qt.state (Terminal.process self) = Qt.Running
  /\ let '(r, self') := Terminal.handle_keypress Qt.Key_Return self in
     r = Py.Raise Py.UnicodeEncodeError
     /\ Qt.child_stdin (Terminal.process self') = [].
Proof. vm_compute. repeat split. Qed.

(** C8, amended.  On the Return key, when the input is empty after stripping,
    the process object is left as it was, so nothing is written; otherwise,
    the shell process running and the input box holding no lone surrogate,
    the input of the shell receives the bytes of the stripped command
    followed by one newline byte, and nothing else. *)
Theorem handle_keypress_submits_command (self : Terminal.TerminalWidget) :
  let command := Py.strip (Terminal.input self) in
  let '(r, self') := Terminal.handle_keypress Qt.Key_Return self in
  (Py.truthy command = false ->
     r = Py.Return tt /\ Terminal.process self' = Terminal.process self)
  /\ (Py.truthy command = true ->
      Py.well_formed (Terminal.input self) = true ->
      Qt.state (Terminal.process self) <> Qt.NotRunning ->
      r = Py.Return tt
      /\ exists b, Py.utf8_encode command = Some b
         /\ Qt.child_stdin (Terminal.process self')
            = Qt.child_stdin (Terminal.process self) ++ b ++ [10]
         /\ Qt.launched (Terminal.process self') = Qt.launched (Terminal.process self)).
Proof.
  intros command. rewrite handle_keypress_return. cbv zeta. fold command.
  destruct (Py.truthy command) eqn:Ht.
  - destruct (Py.utf8_encode (command ++ [10])) as [data|] eqn:Henc.
    + split; [discriminate|]. intros _ Hwf Hrun. split; [reflexivity|].
      destruct (encode_command_line _ (well_formed_strip _ Hwf)) as (b & Hb & Hb').
      fold command in Hb, Hb'. exists b. split; [exact Hb|].
      assert (data = b ++ [10]) as -> by congruence.
      cbn [Terminal.process]. unfold Qt.write.
      destruct (Qt.state (Terminal.process self)); [done| |]; by split.
    + split; [discriminate|]. intros _ Hwf _.
      destruct (encode_command_line _ (well_formed_strip _ Hwf)) as (b & _ & Hb).
      fold command in Hb. congruence.
  - split; [by split|discriminate].
Qed.

(** A command typed with blanks around it, the shell running. *)
Lemma handle_keypress_submits_command_witness :
  let self := Terminal.mkTerminal (Terminal.process Sample.running) [] (lit "  dir /b  ") in
  Py.truthy (Py.strip (Terminal.input self)) = true
  /\ Py.well_formed (Terminal.input self) = true
  /\ Qt.state (Terminal.process self) <> Qt.NotRunning
  /\ Qt.child_stdin (Terminal.process (Terminal.handle_keypress Qt.Key_Return self).2)
     = lit "dir /b" ++ [10].
Proof.
  intros self. split; [reflexivity|]. split; [reflexivity|]. split; [discriminate|].
  pose proof (handle_keypress_submits_command self) as H. cbv zeta in H.
  destruct (Terminal.handle_keypress Qt.Key_Return self) as [r self']. cbn [snd].
  destruct H as [_ H].
  destruct (H eq_refl eq_refl) as (_ & b & Hb & Hin & _); [discriminate|].
  rewrite Hin. injection Hb as <-. reflexivity.
Defined.

(** What the two readers do with the bytes at hand. *)
Lemma on_stdout_decode (self : Terminal.TerminalWidget) :
  Terminal.on_stdout self =
    let p := (Qt.readAllStandardOutput (Terminal.process self)).2 in
    match Py.utf8_decode (Qt.stdout_buffer (Terminal.process self)) with
    | Some data =>
        (Py.Return tt,
         Terminal.mkTerminal p (Terminal.output self ++ [data]) (Terminal.input self))
    | None =>
        (Py.Raise Py.UnicodeDecodeError,
         Terminal.mkTerminal p (Terminal.output self) (Terminal.input self))
    end.
Proof.
  unfold Terminal.on_stdout, Qt.readAllStandardOutput, bind, get,
    Terminal.set_process, Terminal.decode, Terminal.output_append, modify, ret, Py.decode.
  cbn [Terminal.input Terminal.process Terminal.output snd].
  destruct (Py.utf8_decode _); reflexivity.
Qed.

Lemma on_stderr_decode (self : Terminal.TerminalWidget) :
  Terminal.on_stderr self =
    let p := (Qt.readAllStandardError (Terminal.process self)).2 in
    match Py.utf8_decode (Qt.stderr_buffer (Terminal.process self)) with
    | Some data =>
        (Py.Return tt,
         Terminal.mkTerminal p (Terminal.output self ++ [data]) (Terminal.input self))
    | None =>
        (Py.Raise Py.UnicodeDecodeError,
         Terminal.mkTerminal p (Terminal.output self) (Terminal.input self))
    end.
Proof.
  unfold Terminal.on_stderr, Qt.readAllStandardError, bind, get,
    Terminal.set_process, Terminal.decode, Terminal.output_append, modify, ret, Py.decode.
  cbn [Terminal.input Terminal.process Terminal.output snd].
  destruct (Py.utf8_decode _); reflexivity.
Qed.

(** Bytes that are not well-formed UTF-8 by themselves make the reader
    raise: they are taken out of the buffer and nothing is appended. *)
Lemma on_stdout_malformed (self : Terminal.TerminalWidget) :
  Py.utf8_decode (Qt.stdout_buffer (Terminal.process self)) = None ->
  Terminal.on_stdout self =
    (Py.Raise Py.UnicodeDecodeError,
     Terminal.mkTerminal (Qt.readAllStandardOutput (Terminal.process self)).2
       (Terminal.output self) (Terminal.input self)).
Proof. intros H. rewrite on_stdout_decode, H. reflexivity. Qed.

Lemma on_stderr_malformed (self : Terminal.TerminalWidget) :
  Py.utf8_decode (Qt.stderr_buffer (Terminal.process self)) = None ->
  Terminal.on_stderr self =
    (Py.Raise Py.UnicodeDecodeError,
     Terminal.mkTerminal (Qt.readAllStandardError (Terminal.process self)).2
       (Terminal.output self) (Terminal.input self)).
Proof. intros H. rewrite on_stderr_decode, H. reflexivity. Qed.

(** C9, as stated, fails: the shell prints "h" and an e with an acute accent,
    three bytes that are well-formed UTF-8, and the pipe delivers the first
    two of them as one chunk.  Reading that chunk raises; its bytes are
    gone from the buffer and nothing has been appended to the output. *)
Lemma on_stdout_raises_on_split_character :
  let self :=
    Terminal.mkTerminal
      (Qt.receive_stdout [0x68; 0xC3] (Terminal.process Sample.running)) [] [] in
  let '(r, self') := Terminal.on_stdout self in
  Py.utf8_decode ([0x68; 0xC3] ++ [0xA9]) = Some [0x68; 0xE9]
  /\ r = Py.Raise Py.UnicodeDecodeError
  /\ Terminal.output self' = []
  /\ Qt.stdout_buffer (Terminal.process self') = [].
Proof. vm_compute. repeat split. Qed.

(** C9, amended.  Both readers decode with one fixed encoding, strict
    UTF-8: when the bytes at hand are the UTF-8 encoding of a text, the
    reader returns without raising, takes the bytes out of the buffer and
    appends exactly that text to the output. *)
Theorem readers_decode_utf8_text
    (self : Terminal.TerminalWidget) (text : list N) (b : list N) :
  Py.utf8_encode text = Some b ->
  (Qt.stdout_buffer (Terminal.process self) = b ->
     Terminal.on_stdout self =
       (Py.Return tt,
        Terminal.mkTerminal (Qt.readAllStandardOutput (Terminal.process self)).2
          (Terminal.output self ++ [text]) (Terminal.input self)))
  /\ (Qt.stderr_buffer (Terminal.process self) = b ->
      Terminal.on_stderr self =
        (Py.Return tt,
         Terminal.mkTerminal (Qt.readAllStandardError (Terminal.process self)).2
           (Terminal.output self ++ [text]) (Terminal.input self))).
Proof.
  intros Henc%utf8_decode_encode. split; intros Hbuf.
  - rewrite on_stdout_decode, Hbuf, Henc. reflexivity.
  - rewrite on_stderr_decode, Hbuf, Henc. reflexivity.
Qed.

(** The three bytes of the counterexample, delivered as one chunk. *)
Lemma readers_decode_utf8_text_witness :
  let self :=
    Terminal.mkTerminal
      (Qt.receive_stdout [0x68; 0xC3; 0xA9] (Terminal.process Sample.running)) [] [] in
  Py.utf8_encode [0x68; 0xE9] = Some [0x68; 0xC3; 0xA9]
  /\ Qt.stdout_buffer (Terminal.process self) = [0x68; 0xC3; 0xA9]
  /\ (Terminal.on_stdout self).1 = Py.Return tt
  /\ Terminal.output (Terminal.on_stdout self).2 = [[0x68; 0xE9]].
Proof.
  intros self. split; [reflexivity|]. split; [reflexivity|].
  destruct (readers_decode_utf8_text self [0x68; 0xE9] [0x68; 0xC3; 0xA9] eq_refl)
    as [H _].
  rewrite (H eq_refl). split; reflexivity.
Defined.

(** Some values of the modelled library functions. *)
Example splitext_py :
  Py.splitext (lit "C:\scripts\hello.py") = (lit "C:\scripts\hello", lit ".py").
Proof. reflexivity. Qed.

Example splitext_dot_in_directory :
  Py.splitext (lit "C:\scripts.d\hello") = (lit "C:\scripts.d\hello", []).
Proof. reflexivity. Qed.

Example splitext_leading_dot :
  Py.splitext (lit "C:\x\.profile") = (lit "C:\x\.profile", []).
Proof. reflexivity. Qed.

Example splitext_upper_case :
  Editor.run_script_cmd (lit "C:\scripts\HELLO.PY") = None.
Proof. reflexivity. Qed.

Example strip_command : Py.strip (lit "  dir /b  ") = lit "dir /b".
Proof. reflexivity. Qed.

Example encode_four_lengths :
  Py.utf8_encode [0x68; 0xE9; 0x20AC; 0x1F600]
  = Some [0x68; 0xC3; 0xA9; 0xE2; 0x82; 0xAC; 0xF0; 0x9F; 0x98; 0x80].
Proof. reflexivity. Qed.

Example decode_rejects_overlong : Py.utf8_decode [0xC0; 0x80] = None.
Proof. reflexivity. Qed.

Example decode_rejects_surrogate : Py.utf8_decode [0xED; 0xA0; 0x80] = None.
Proof. reflexivity. Qed.

Example list2cmdline_quotes_spaces :
  Py.list2cmdline [lit "python"; lit "C:\my dir\a.py"]
  = lit "python " ++ [34] ++ lit "C:\my dir\a.py" ++ [34].
Proof. reflexivity. Qed.

(* ===================================================================== *)
(** ** More about [run_script] and [save] *)
(* ===================================================================== *)

(** Splits a goal about [run_script os w] into the ways the run can go, and
    replaces the run by its result in each. *)
Ltac run_cases os w :=
  let t := fresh "t" in
  let path := fresh "path" in
  let cmd := fresh "cmd" in
  let strerror := fresh "strerror" in
  let b := fresh "b" in
  let Hcur := fresh "Hcur" in
  let Hp := fresh "Hp" in
  let Hpath := fresh "Hpath" in
  let Hne := fresh "Hne" in
  let Hcmd := fresh "Hcmd" in
  let Hopen := fresh "Hopen" in
  let Henc := fresh "Henc" in
  destruct (Editor.current w) as [t|] eqn:Hcur;
  [ destruct (Editor.has_path (Editor.file_path t)) eqn:Hp;
    [ destruct (Editor.file_path t) as [path|] eqn:Hpath; [|discriminate];
      assert (path <> []) as Hne by (by destruct path);
      destruct (Editor.run_script_cmd path) as [cmd|] eqn:Hcmd;
      [ destruct (Editor.open_for_writing os path) as [strerror|] eqn:Hopen;
        [ rewrite (run_script_open_fails os w t path cmd strerror Hcur Hpath Hne Hcmd Hopen)
        | destruct (Py.utf8_encode (Editor.toPlainText t)) as [b|] eqn:Henc;
          [ rewrite (run_script_launch os w t path cmd b Hcur Hpath Hne Hcmd Hopen Henc);
            cbv zeta;
            destruct (Editor.create_process os cmd true _) as [?|rc out|?];
            [|destruct (rc =? 0)%Z|]
          | rewrite (run_script_encode_fails os w t path cmd Hcur Hpath Hne Hcmd Hopen Henc) ] ]
      | rewrite (run_script_else os w t path Hcur Hpath Hne Hcmd) ]
    | rewrite (run_script_unsaved os w) by (by rewrite Hcur) ]
  | rewrite (run_script_unsaved os w) by (by rewrite Hcur) ].

(** X1.  A run changes no tab object and does not change which tab is
    current, however it ends. *)
Theorem run_script_keeps_tabs (os : Editor.Platform) (w : Editor.World) :
  Editor.tabs (Editor.run_script os w).2 = Editor.tabs w
  /\ Editor.currentIndex (Editor.run_script os w).2 = Editor.currentIndex w.
Proof. run_cases os w; split; reflexivity. Qed.

(** X2.  A run leaves alone every file other than the file of the current
    tab, however it ends. *)
Theorem run_script_touches_only_its_file
    (os : Editor.Platform) (w : Editor.World) (q : list N) :
  (forall t, Editor.current w = Some t -> Editor.file_path t <> Some q) ->
  Editor.disk (Editor.run_script os w).2 !! q = Editor.disk w !! q.
Proof.
  intros Hq. run_cases os w; try reflexivity;
    cbn [snd Editor.disk Editor.with_file Editor.add_events];
    apply lookup_insert_ne; intros ->; by eapply Hq.
Qed.

(** The other tab of an editor with two tabs keeps its file while the
    current one is run. *)
Lemma run_script_touches_only_its_file_witness :
  Editor.disk (Editor.run_script (Sample.exits 0 [])
                 (Editor.mkWorld (Editor.tabs Cases.two_tabs) 0
                    (Editor.disk Cases.two_tabs) [])).2 !! Sample.notes_txt
  = Some (lit "done").
Proof.
  rewrite (run_script_touches_only_its_file (Sample.exits 0 []) _ Sample.notes_txt).
  - reflexivity.
  - intros t [= <-]. discriminate.
Defined.

(** X3.  A run launches at most one process.  A run that returns has shown
    exactly one message box; a run that raises has shown none, and what it
    raises is never the [CalledProcessError] of a failed script. *)
Theorem run_script_one_message_box (os : Editor.Platform) (w : Editor.World) :
  let '(r, w') := Editor.run_script os w in
  exists evs,
    Editor.events w' = Editor.events w ++ evs
    /\ (length (Editor.commands evs) <= 1)%nat
    /\ match r with
       | Py.Return _ => length (Window.message_boxes evs) = 1%nat
       | Py.Raise e =>
           Window.message_boxes evs = []
           /\ forall returncode output, e <> Py.CalledProcessError returncode output
       end.
Proof.
  run_cases os w;
    try (exists []; rewrite app_nil_r; repeat split; cbn; (lia || discriminate));
    eexists; (split; [reflexivity|]); repeat split; cbn; (lia || discriminate).
Qed.

(** X4.  When the file of the tab cannot be opened for writing, the run
    raises the [OSError] of [open] and has done nothing: no file written, no
    process launched, no message box. *)
Theorem run_script_unwritable_file
    (os : Editor.Platform) (w : Editor.World) (t : Editor.ScriptTab)
    (path strerror : list N) :
  Editor.current w = Some t ->
  Editor.file_path t = Some path ->
  Py.truthy path = true ->
  Editor.SUPPORTED_EXTENSIONS !! (Py.splitext path).2 <> None ->
  Editor.open_for_writing os path = Some strerror ->
  Editor.run_script os w = (Py.Raise (Py.OSError strerror), w).
Proof.
  intros Hcur Hpath Hne Hext Hopen.
  assert (path <> []) as Hne' by (by destruct path).
  destruct (Editor.run_script_cmd path) as [cmd|] eqn:Hcmd.
  - exact (run_script_open_fails os w t path cmd strerror Hcur Hpath Hne' Hcmd Hopen).
  - by apply run_script_cmd_supported in Hcmd.
Qed.

Lemma run_script_unwritable_file_witness :
  Editor.run_script Cases.read_only
    (Sample.editor Sample.hello_py (lit "print(1)") {[Sample.hello_py := lit "old"]})
  = (Py.Raise (Py.OSError (lit "[Errno 13] Permission denied")),
     Sample.editor Sample.hello_py (lit "print(1)") {[Sample.hello_py := lit "old"]}).
Proof.
  apply (run_script_unwritable_file Cases.read_only _
           (Editor.mkTab (Some Sample.hello_py) (lit "print(1)")) Sample.hello_py);
    try reflexivity.
  discriminate.
Defined.

(** X5.  Without a current tab, or on a tab that has no file yet, the run
    only shows the "You must save your script" warning: no dialog to save,
    no file written, no process launched. *)
Theorem run_script_needs_a_saved_tab (os : Editor.Platform) (w : Editor.World) :
  (Editor.current w = None
   \/ exists t, Editor.current w = Some t
                /\ Editor.has_path (Editor.file_path t) = false) ->
  Editor.run_script os w = (Py.Return tt, Editor.add_events w [Editor.unsaved_warning]).
Proof.
  intros H. apply run_script_unsaved.
  destruct H as [->|(t & -> & Ht)]; done.
Qed.

Lemma run_script_needs_a_saved_tab_witness :
  Editor.run_script (Cases.dialog_answers Sample.hello_py) (Cases.untitled (lit "print(1)") ∅)
  = (Py.Return tt,
     Editor.add_events (Cases.untitled (lit "print(1)") ∅) [Editor.unsaved_warning]).
Proof.
  apply run_script_needs_a_saved_tab. right.
  exists (Editor.mkTab None (lit "print(1)")). split; reflexivity.
Defined.

Section SaveFacts.

Import Editor.
Context (os : Platform).

(** The three ways a write can go. *)
Lemma write_text_result path text w :
  write_text os path text w =
    match open_for_writing os path with
    | Some strerror => (Py.Raise (Py.OSError strerror), w)
    | None =>
        match Py.utf8_encode text with
        | None => (Py.Raise Py.UnicodeEncodeError, with_file w path [])
        | Some _ =>
            (Py.Return tt, add_events (with_file w path text) [FileWritten path text])
        end
    end.
Proof.
  unfold write_text. destruct (open_for_writing os path); [reflexivity|].
  destruct (Py.utf8_encode text); unfold bind, get, set_disk, log, modify, raise;
    cbn [disk tabs currentIndex events]; [|reflexivity].
  rewrite insert_insert_eq. reflexivity.
Qed.

(** [save] on a tab that has a path: the write, and [True] after it. *)
Lemma save_with_path w self t path :
  tabs w !! self = Some t -> file_path t = Some path -> Py.truthy path = true ->
  save os self w =
    match write_text os path (toPlainText t) w with
    | (Py.Return _, w') => (Py.Return true, w')
    | (Py.Raise e, w') => (Py.Raise e, w')
    end.
Proof.
  intros Hself Hpath Hne. apply list_lookup_total_correct in Hself.
  unfold save, get_tab, bind at 1, bind at 1, get at 1, ret at 1.
  rewrite Hself, Hpath. cbn [has_path]. rewrite Hne. cbn [negb].
  unfold bind at 1, ret at 1, bind at 1, bind at 1, get at 1, ret at 1.
  rewrite Hself, Hpath. cbn [has_path from_option id]. rewrite Hne.
  unfold bind. destruct (write_text os path (toPlainText t) w) as [[[]|e] w']; reflexivity.
Qed.

(** [save] on a tab that has no path: the tab takes the answer of the
    dialog as its path, and the write follows unless the answer is empty. *)
Lemma save_without_path w self t :
  tabs w !! self = Some t -> has_path (file_path t) = false ->
  let answer := getSaveFileName os in
  let w1 := mkWorld (<[self := mkTab (Some answer) (toPlainText t)]> (tabs w))
              (currentIndex w) (disk w) (events w) in
  save os self w =
    if Py.truthy answer then
      match write_text os answer (toPlainText t) w1 with
      | (Py.Return _, w') => (Py.Return true, w')
      | (Py.Raise e, w') => (Py.Raise e, w')
      end
    else (Py.Return false, w1).
Proof.
  intros Hself Hp answer w1.
  assert (self < length (tabs w))%nat as Hlt by (by eapply lookup_lt_Some).
  pose proof (list_lookup_total_correct _ _ _ Hself) as Hself'.
  unfold save, get_tab, bind at 1, bind at 1, get at 1, ret at 1.
  rewrite Hself', Hp. cbn [negb].
  unfold bind at 1, set_file_path, modify.
  unfold bind at 1, bind at 1, get at 1, ret at 1. cbn [tabs].
  rewrite list_lookup_total_alter_eq by done. rewrite Hself'.
  cbn [file_path toPlainText has_path from_option id]. fold answer.
  assert (alter (fun t0 => mkTab (Some answer) (toPlainText t0)) self (tabs w)
          = <[self := mkTab (Some answer) (toPlainText t)]> (tabs w)) as ->.
  { apply list_eq. intros j. destruct (decide (j = self)) as [->|Hj].
    - rewrite list_lookup_alter_eq, list_lookup_insert_eq, Hself by done. reflexivity.
    - rewrite list_lookup_alter_ne, list_lookup_insert_ne by done. reflexivity. }
  fold w1. destruct (Py.truthy answer); [|reflexivity].
  unfold bind. destruct (write_text os answer (toPlainText t) w1) as [[[]|e] w']; reflexivity.
Qed.

End SaveFacts.

(** Only Unicode scalar values, and so only well-formed text, can be
    encoded. *)
Lemma encode_code_point_only_scalar c b :
  Py.encode_code_point c = Some b -> Py.is_scalar c = true.
Proof.
  unfold Py.encode_code_point, Py.is_scalar, Py.is_surrogate.
  destruct (N.ltb_spec c 0x80), (N.ltb_spec c 0x800), (N.ltb_spec c 0x10000),
    (N.leb_spec 0xD800 c), (N.ltb_spec c 0xE000), (N.ltb_spec c 0x110000);
    cbn; intros; try discriminate; try reflexivity; lia.
Qed.

Lemma utf8_encode_only_well_formed s b :
  Py.utf8_encode s = Some b -> Py.well_formed s = true.
Proof.
  unfold Py.well_formed. revert b.
  induction s as [|c s IH]; intros b; cbn [Py.utf8_encode forallb]; [done|].
  destruct (Py.encode_code_point c) as [bc|] eqn:Hc; [|discriminate].
  destruct (Py.utf8_encode s) as [bs|]; [|discriminate]. intros _.
  rewrite (encode_code_point_only_scalar c bc Hc). by apply (IH bs).
Qed.

(** X6.  [save] on a tab that has no file, the dialog cancelled: it returns
    [False], the path of the tab is the empty string, and nothing is written:
    disk and events are as they were. *)
Theorem save_dialog_cancelled
    (os : Editor.Platform) (w : Editor.World) (self : nat) (t : Editor.ScriptTab) :
  Editor.tabs w !! self = Some t ->
  Editor.has_path (Editor.file_path t) = false ->
  Py.truthy (Editor.getSaveFileName os) = false ->
  let '(r, w') := Editor.save os self w in
  r = Py.Return false
  /\ Editor.tabs w' !! self = Some (Editor.mkTab (Some []) (Editor.toPlainText t))
  /\ Editor.disk w' = Editor.disk w
  /\ Editor.events w' = Editor.events w.
Proof.
  intros Hself Hp Hans. rewrite (save_without_path os w self t Hself Hp). cbv zeta.
  rewrite Hans. destruct (Editor.getSaveFileName os); [|discriminate].
  repeat split. cbn [Editor.tabs]. apply list_lookup_insert_eq.
  by eapply lookup_lt_Some.
Qed.

Lemma save_dialog_cancelled_witness :
  let '(r, w') := Editor.save Cases.dialog_cancelled 0 (Cases.untitled (lit "print(1)") ∅) in
  r = Py.Return false
  /\ Editor.tabs w' !! 0%nat = Some (Editor.mkTab (Some []) (lit "print(1)"))
  /\ Editor.disk w' = ∅
  /\ Editor.events w' = [].
Proof.
  exact (save_dialog_cancelled Cases.dialog_cancelled
           (Cases.untitled (lit "print(1)") ∅) 0 _ eq_refl eq_refl eq_refl).
Defined.

(** X7.  [save] on a tab that has no file, the dialog answered with a path
    to which the buffer can be written: it returns [True], the tab has the
    path, the file holds the buffer, and that is the only write. *)
Theorem save_as_dialog_path
    (os : Editor.Platform) (w : Editor.World) (self : nat) (t : Editor.ScriptTab) :
  Editor.tabs w !! self = Some t ->
  Editor.has_path (Editor.file_path t) = false ->
  Py.truthy (Editor.getSaveFileName os) = true ->
  Editor.save_goes_through os (Editor.getSaveFileName os) (Editor.toPlainText t) = true ->
  let path := Editor.getSaveFileName os in
  let '(r, w') := Editor.save os self w in
  r = Py.Return true
  /\ Editor.tabs w' !! self = Some (Editor.mkTab (Some path) (Editor.toPlainText t))
  /\ Editor.disk w' = <[path := Editor.toPlainText t]> (Editor.disk w)
  /\ Editor.events w' = Editor.events w ++ [Editor.FileWritten path (Editor.toPlainText t)].
Proof.
  intros Hself Hp Hans Hsave path.
  destruct (save_goes_through_true os _ _ Hsave) as [Hopen [b Henc]].
  rewrite (save_without_path os w self t Hself Hp). cbv zeta.
  rewrite Hans, write_text_result, Hopen, Henc. repeat split.
  cbn [Editor.tabs Editor.add_events Editor.with_file]. apply list_lookup_insert_eq.
  by eapply lookup_lt_Some.
Qed.

Lemma save_as_dialog_path_witness :
  let '(r, w') :=
    Editor.save (Cases.dialog_answers Sample.hello_py) 0 (Cases.untitled (lit "print(1)") ∅) in
  r = Py.Return true
  /\ Editor.tabs w' !! 0%nat = Some (Editor.mkTab (Some Sample.hello_py) (lit "print(1)"))
  /\ Editor.disk w' = <[Sample.hello_py := lit "print(1)"]> ∅
  /\ Editor.events w' = [] ++ [Editor.FileWritten Sample.hello_py (lit "print(1)")].
Proof.
  exact (save_as_dialog_path (Cases.dialog_answers Sample.hello_py)
           (Cases.untitled (lit "print(1)") ∅) 0 _ eq_refl eq_refl eq_refl eq_refl).
Defined.

(** X8.  When the buffer holds a lone surrogate, which UTF-8 cannot encode,
    [save] on a tab with a file raises [UnicodeEncodeError] after the file
    has been opened for writing: the file is left empty, whatever it held. *)
Theorem save_unencodable_empties_file
    (os : Editor.Platform) (w : Editor.World) (self : nat) (t : Editor.ScriptTab)
    (path : list N) :
  Editor.tabs w !! self = Some t ->
  Editor.file_path t = Some path ->
  Py.truthy path = true ->
  Editor.open_for_writing os path = None ->
  Py.well_formed (Editor.toPlainText t) = false ->
  let '(r, w') := Editor.save os self w in
  r = Py.Raise Py.UnicodeEncodeError
  /\ Editor.disk w' !! path = Some []
  /\ Editor.events w' = Editor.events w.
Proof.
  intros Hself Hpath Hne Hopen Hwf.
  rewrite (save_with_path os w self t path Hself Hpath Hne), write_text_result, Hopen.
  destruct (Py.utf8_encode (Editor.toPlainText t)) as [b|] eqn:Henc.
  - apply utf8_encode_only_well_formed in Henc. congruence.
  - repeat split. apply lookup_insert_eq.
Qed.

Lemma save_unencodable_empties_file_witness :
  Py.well_formed [0x78; 0xD800] = false
  /\ let '(r, w') :=
       Editor.save (Sample.exits 0 []) 0
         (Sample.editor Sample.hello_py [0x78; 0xD800] {[Sample.hello_py := lit "print(1)"]}) in
     r = Py.Raise Py.UnicodeEncodeError
     /\ Editor.disk w' !! Sample.hello_py = Some []
     /\ Editor.events w' = [].
Proof.
  split; [reflexivity|].
  exact (save_unencodable_empties_file (Sample.exits 0 []) 
           (Sample.editor Sample.hello_py [0x78; 0xD800] {[Sample.hello_py := lit "print(1)"]})
           0 _ Sample.hello_py eq_refl eq_refl eq_refl eq_refl eq_refl).
Defined.

(** X9.  However it ends, [save] changes no file other than the one it
    saves to (the file of the tab, or the answer of the dialog for a tab
    without a file), no tab other than its own, never the text of a buffer,
    and not which tab is current. *)
Theorem save_touches_one_file_and_one_tab
    (os : Editor.Platform) (w : Editor.World) (self : nat) (t : Editor.ScriptTab)
    (q : list N) (j : nat) :
  Editor.tabs w !! self = Some t ->
  let target :=
    if Editor.has_path (Editor.file_path t) then default [] (Editor.file_path t)
    else Editor.getSaveFileName os in
  let w' := (Editor.save os self w).2 in
  Editor.currentIndex w' = Editor.currentIndex w
  /\ (j <> self -> Editor.tabs w' !! j = Editor.tabs w !! j)
  /\ Editor.toPlainText <$> Editor.tabs w' !! self = Some (Editor.toPlainText t)
  /\ (q <> target -> Editor.disk w' !! q = Editor.disk w !! q).
Proof.
  intros Hself target w'. subst w' target.
  assert (self < length (Editor.tabs w))%nat as Hlt by (by eapply lookup_lt_Some).
  destruct (Editor.has_path (Editor.file_path t)) eqn:Hp.
  - destruct (Editor.file_path t) as [path|] eqn:Hpath; [|discriminate].
    cbn [Editor.has_path] in Hp. cbn [from_option id].
    rewrite (save_with_path os w self t path Hself Hpath Hp), write_text_result.
    destruct (Editor.open_for_writing os path); [|destruct (Py.utf8_encode _)];
      cbn [snd Editor.currentIndex Editor.tabs Editor.disk Editor.with_file Editor.add_events];
      rewrite Hself; repeat split; try done;
      intros Hq; by rewrite lookup_insert_ne.
  - rewrite (save_without_path os w self t Hself Hp). cbv zeta.
    destruct (Py.truthy (Editor.getSaveFileName os)).
    + rewrite write_text_result.
      destruct (Editor.open_for_writing os _); [|destruct (Py.utf8_encode _)];
        cbn [snd Editor.currentIndex Editor.tabs Editor.disk Editor.with_file Editor.add_events];
        rewrite list_lookup_insert_eq by done; repeat split; try done;
        try (intros Hj; by rewrite list_lookup_insert_ne);
        intros Hq; by rewrite lookup_insert_ne.
    + cbn [snd Editor.currentIndex Editor.tabs Editor.disk].
      rewrite list_lookup_insert_eq by done. repeat split; try done.
      intros Hj. by rewrite list_lookup_insert_ne.
Qed.

(** Saving the second of two tabs, whose file is the one on the disk. *)
Lemma save_touches_one_file_and_one_tab_witness :
  let w' := (Editor.save (Sample.exits 0 []) 1 Cases.two_tabs).2 in
  Editor.currentIndex w' = 1%Z
  /\ (0%nat <> 1%nat -> Editor.tabs w' !! 0%nat = Editor.tabs Cases.two_tabs !! 0%nat)
  /\ Editor.toPlainText <$> Editor.tabs w' !! 1%nat = Some (lit "to do")
  /\ (Sample.hello_py <> Sample.notes_txt ->
      Editor.disk w' !! Sample.hello_py = Editor.disk Cases.two_tabs !! Sample.hello_py).
Proof.
  exact (save_touches_one_file_and_one_tab (Sample.exits 0 []) Cases.two_tabs 1 _
           Sample.hello_py 0 eq_refl).
Defined.

(** What [save_file] does, by what [save] on the current tab gives. *)
Lemma save_file_result (os : Editor.Platform) (win : Window.Window) :
  Window.save_file os win =
    let rest w :=
      Window.mkWindow w (Window.language_label win) (Window.status_messages win)
        (Window.dark_mode win) (Window.app_palette win) in
    match Editor.current (Window.world win) with
    | None => (Py.Return tt, win)
    | Some _ =>
        match Editor.save os (Z.to_nat (Editor.currentIndex (Window.world win)))
                (Window.world win) with
        | (Py.Return true, w') =>
            (Py.Return tt,
             Window.mkWindow w' (Window.language_label win)
               (Window.status_messages win ++ [lit "File saved!"])
               (Window.dark_mode win) (Window.app_palette win))
        | (Py.Return false, w') => (Py.Return tt, rest w')
        | (Py.Raise e, w') => (Py.Raise e, rest w')
        end
    end.
Proof.
  unfold Window.save_file, bind at 1, Window.lift at 1.
  destruct (Editor.current (Window.world win)) as [t|] eqn:Hcur.
  - destruct (current_tab_current _ _ Hcur) as [-> _].
    unfold bind, Window.lift.
    destruct (Editor.save os _ _) as [[[]|e] w']; reflexivity.
  - rewrite (current_tab_none _ Hcur). by destruct win.
Qed.

(** X10.  [save_file] shows "File saved!" exactly when it has written a
    file: after a cancelled dialog, without a current tab, or when the save
    raises, there is no message and no write; and it changes neither the
    language label nor the theme. *)
Theorem save_file_message_iff_written (os : Editor.Platform) (win : Window.Window) :
  let '(r, win') := Window.save_file os win in
  Window.language_label win' = Window.language_label win
  /\ Window.dark_mode win' = Window.dark_mode win
  /\ Window.app_palette win' = Window.app_palette win
  /\ exists evs msgs,
       Editor.events (Window.world win') = Editor.events (Window.world win) ++ evs
       /\ Window.status_messages win' = Window.status_messages win ++ msgs
       /\ ((r = Py.Return tt /\ msgs = [lit "File saved!"]
            /\ exists path text, evs = [Editor.FileWritten path text])
           \/ (msgs = [] /\ evs = [])).
Proof.
  rewrite save_file_result. cbv zeta.
  destruct (Editor.current (Window.world win)) as [t|] eqn:Hcur.
  2: { repeat split. exists [], []. rewrite !app_nil_r. repeat split. by right. }
  unfold Editor.current in Hcur.
  destruct (Editor.currentIndex (Window.world win) <? 0)%Z; [discriminate|].
  set (self := Z.to_nat _) in *.
  destruct (Editor.has_path (Editor.file_path t)) eqn:Hp.
  - destruct (Editor.file_path t) as [path|] eqn:Hpath; [|discriminate].
    cbn [Editor.has_path] in Hp.
    rewrite (save_with_path os _ self t path Hcur Hpath Hp), write_text_result.
    destruct (Editor.open_for_writing os path); [|destruct (Py.utf8_encode _)];
      cbn [Window.world Window.language_label Window.dark_mode Window.app_palette
           Window.status_messages Editor.events Editor.add_events Editor.with_file];
      repeat split.
    + exists [], []. rewrite !app_nil_r. repeat split. by right.
    + eexists _, _. repeat split. left. repeat split. eauto.
    + exists [], []. rewrite !app_nil_r. repeat split. by right.
  - rewrite (save_without_path os _ self t Hcur Hp). cbv zeta.
    destruct (Py.truthy (Editor.getSaveFileName os)).
    + rewrite write_text_result.
      destruct (Editor.open_for_writing os _); [|destruct (Py.utf8_encode _)];
        cbn [Window.world Window.language_label Window.dark_mode Window.app_palette
             Window.status_messages Editor.events Editor.add_events Editor.with_file];
        repeat split.
      * exists [], []. rewrite !app_nil_r. repeat split. by right.
      * eexists _, _. repeat split. left. repeat split. eauto.
      * exists [], []. rewrite !app_nil_r. repeat split. by right.
    + cbn [Window.world Window.language_label Window.dark_mode Window.app_palette
           Window.status_messages Editor.events]. repeat split.
      exists [], []. rewrite !app_nil_r. repeat split. by right.
Qed.

(* ===================================================================== *)
(** ** The status bar, the language registry, the theme and the tabs *)
(* ===================================================================== *)

(** What [update_status] does: it sets the label from the current tab. *)
Lemma update_status_result (win : Window.Window) :
  Window.update_status win =
    (Py.Return tt,
     Window.mkWindow (Window.world win)
       (match Editor.current (Window.world win) with
        | Some t =>
            if Editor.has_path (Editor.file_path t)
            then lit "Language: "
                 ++ Window.detect_language (default [] (Editor.file_path t))
            else lit "Language: "
        | None => lit "Language: "
        end)
       (Window.status_messages win) (Window.dark_mode win) (Window.app_palette win)).
Proof.
  unfold Window.update_status, bind at 1, Window.lift at 1.
  destruct (Editor.current (Window.world win)) as [t|] eqn:Hcur.
  - destruct (current_tab_current _ _ Hcur) as [-> Ht].
    unfold Editor.get_tab, Window.lift, bind, get, ret.
    cbn [Window.world Window.language_label Window.status_messages
         Window.dark_mode Window.app_palette]. rewrite Ht.
    destruct (Editor.has_path (Editor.file_path t)); by destruct win as [[]].
  - rewrite (current_tab_none _ Hcur). by destruct win as [[]].
Qed.

(** [detect_language] says "Unknown" exactly for the extensions that are not
    a key of the registry. *)
Lemma detect_language_unknown path :
  Window.detect_language path = lit "Unknown" <->
  Editor.SUPPORTED_EXTENSIONS !! (Py.splitext path).2 = None.
Proof.
  unfold Window.detect_language, Editor.SUPPORTED_EXTENSIONS.
  destruct (_ !! _) as [v|] eqn:Hl; [|done]. split; [|discriminate].
  cbn [from_option id]. intros ->. exfalso.
  apply lookup_insert_Some in Hl as [[_ Hl]|[_ Hl]]; [discriminate|].
  apply lookup_insert_Some in Hl as [[_ Hl]|[_ Hl]]; [discriminate|].
  apply lookup_singleton_Some in Hl as [_ Hl]. discriminate.
Qed.

(** X11.  On a tab with a file, the language label that [update_status]
    sets reads "Language: Unknown" exactly when [run_script] refuses the tab
    with the "Unsupported script type!" warning; and [update_status] changes
    nothing but the label. *)
Theorem status_unknown_iff_run_refuses
    (os : Editor.Platform) (win : Window.Window) (t : Editor.ScriptTab) (path : list N) :
  Editor.current (Window.world win) = Some t ->
  Editor.file_path t = Some path ->
  Py.truthy path = true ->
  let '(r, win') := Window.update_status win in
  r = Py.Return tt
  /\ Window.world win' = Window.world win
  /\ Window.status_messages win' = Window.status_messages win
  /\ (Window.language_label win' = lit "Language: Unknown" <->
      Editor.run_script os (Window.world win)
      = (Py.Return tt,
         Editor.add_events (Window.world win) [Editor.unsupported_warning])).
Proof.
  intros Hcur Hpath Hne. rewrite update_status_result, Hcur, Hpath.
  cbn [Editor.has_path from_option id]. rewrite Hne.
  repeat (split; [reflexivity|]).
  cbn [Window.language_label].
  assert (path <> []) as Hne' by (by destruct path).
  set (w := Window.world win) in *.
  split.
  - intros Hl. apply (app_inv_head (lit "Language: ")) in Hl.
    apply detect_language_unknown, run_script_cmd_supported in Hl.
    exact (run_script_else os w t path Hcur Hpath Hne' Hl).
  - intros Hrun. change (lit "Language: Unknown") with (lit "Language: " ++ lit "Unknown").
    f_equal. apply detect_language_unknown, run_script_cmd_supported.
    destruct (Editor.run_script_cmd path) as [cmd|] eqn:Hcmd; [exfalso|reflexivity].
    destruct (Editor.open_for_writing os path) as [strerror|] eqn:Hopen.
    { rewrite (run_script_open_fails os w t path cmd strerror Hcur Hpath Hne' Hcmd Hopen)
        in Hrun. discriminate. }
    destruct (Py.utf8_encode (Editor.toPlainText t)) as [b|] eqn:Henc.
    + rewrite (run_script_launch os w t path cmd b Hcur Hpath Hne' Hcmd Hopen Henc)
        in Hrun. cbv zeta in Hrun.
      destruct (Editor.create_process os cmd true _); [discriminate| |discriminate].
      injection Hrun as Hd He. apply app_inv_head in He. discriminate.
    + rewrite (run_script_encode_fails os w t path cmd Hcur Hpath Hne' Hcmd Hopen Henc)
        in Hrun. discriminate.
Qed.

Lemma status_unknown_iff_run_refuses_witness :
  Window.language_label
    (Window.update_status
       (Cases.window (Sample.editor Sample.notes_txt (lit "to do") ∅))).2
  = lit "Language: Unknown"
  /\ Editor.run_script (Sample.exits 0 []) (Sample.editor Sample.notes_txt (lit "to do") ∅)
     = (Py.Return tt,
        Editor.add_events (Sample.editor Sample.notes_txt (lit "to do") ∅)
          [Editor.unsupported_warning]).
Proof.
  pose proof (status_unknown_iff_run_refuses (Sample.exits 0 [])
                (Cases.window (Sample.editor Sample.notes_txt (lit "to do") ∅))
                _ Sample.notes_txt eq_refl eq_refl eq_refl) as H.
  destruct (Window.update_status _) as [r win']. cbn [snd].
  destruct H as (_ & _ & _ & H). split; [apply H|]; reflexivity.
Defined.

(** X12.  For each language of the combo box, the generator of [new_file]
    finds an extension; the registry maps that extension back to the
    language, and the file name that [new_file] proposes with it is detected
    as that language and accepted by [run_script].  For any other language
    the generator is exhausted ([next] raises). *)
Theorem new_file_ext_round_trip (lang : list N) :
  (lang ∈ Window.language_combo_items ->
   exists ext,
     Window.new_file_ext lang = Some ext
     /\ Editor.SUPPORTED_EXTENSIONS !! ext = Some lang
     /\ Window.detect_language (Window.new_file_default_name ext) = lang
     /\ is_Some (Editor.run_script_cmd (Window.new_file_default_name ext)))
  /\ (lang ∉ Window.language_combo_items -> Window.new_file_ext lang = None).
Proof.
  split.
  - unfold Window.language_combo_items, Window.SUPPORTED_EXTENSIONS_items.
    cbn [fmap list_fmap snd]. intros Hin.
    repeat (apply elem_of_cons in Hin as [->|Hin]);
      [ exists (lit ".py") | exists (lit ".bat") | exists (lit ".ps1")
      | by apply elem_of_nil in Hin ];
      (split; [reflexivity|]); (split; [reflexivity|]); (split; [reflexivity|]);
      by eexists.
  - unfold Window.new_file_ext, Window.language_combo_items,
      Window.SUPPORTED_EXTENSIONS_items. cbn [fmap list_fmap snd find]. intros Hnot.
    repeat case_bool_decide; try reflexivity; exfalso; apply Hnot;
      cbn [snd] in *; subst lang.
    + left.
    + right; left.
    + right; right; left.
Qed.

Lemma new_file_ext_round_trip_witness :
  (lit "Batch" ∈ Window.language_combo_items)
  /\ Window.new_file_ext (lit "Batch") = Some (lit ".bat")
  /\ Window.detect_language (lit "untitled.bat") = lit "Batch"
  /\ (lit "Ruby" ∉ Window.language_combo_items)
  /\ Window.new_file_ext (lit "Ruby") = None.
Proof.
  destruct (new_file_ext_round_trip (lit "Batch")) as [H _].
  destruct (new_file_ext_round_trip (lit "Ruby")) as [_ H'].
  assert (lit "Batch" ∈ Window.language_combo_items) as Hin by (right; left).
  assert (lit "Ruby" ∉ Window.language_combo_items) as Hnot.
  { intros Hr. unfold Window.language_combo_items in Hr.
    cbn [fmap list_fmap snd Window.SUPPORTED_EXTENSIONS_items] in Hr.
    repeat (apply elem_of_cons in Hr as [Hr|Hr]; [discriminate|]).
    by apply elem_of_nil in Hr. }
  destruct (H Hin) as (ext & He & _ & _ & _).
  split; [exact Hin|]. split; [reflexivity|]. split; [reflexivity|].
  split; [exact Hnot|exact (H' Hnot)].
Defined.

(** One press of "Toggle Theme": the flag is negated and the palette is the
    one of the new flag, whatever the palette was. *)
Lemma toggle_theme_result (win : Window.Window) :
  Window.toggle_theme win =
    (Py.Return tt,
     Window.mkWindow (Window.world win) (Window.language_label win)
       (Window.status_messages win) (negb (Window.dark_mode win))
       (if negb (Window.dark_mode win) then Window.dark_palette else Window.light_palette)).
Proof.
  unfold Window.toggle_theme, Window.set_dark_palette, Window.set_light_palette,
    Window.set_dark_mode, Window.setPalette, bind, get, modify.
  cbn [Window.world Window.language_label Window.status_messages
       Window.dark_mode Window.app_palette].
  by destruct (Window.dark_mode win).
Qed.

(** X13.  After [init_theme], [n] presses of "Toggle Theme" leave the window
    dark exactly when [n] is odd, the palette of the application being the
    dark one or the light one accordingly; the editor, the label and the
    status bar are not touched. *)
Theorem toggles_follow_parity (n : nat) (win : Window.Window) :
  let '(r, win') := (Window.init_theme ;; Window.toggles n) win in
  r = Py.Return tt
  /\ Window.dark_mode win' = Nat.odd n
  /\ Window.app_palette win'
     = (if Nat.odd n then Window.dark_palette else Window.light_palette)
  /\ Window.world win' = Window.world win
  /\ Window.language_label win' = Window.language_label win
  /\ Window.status_messages win' = Window.status_messages win.
Proof.
  unfold bind at 1, Window.init_theme, Window.set_light_palette,
    Window.set_dark_mode, Window.setPalette, bind at 1, modify.
  cbn [Window.world Window.language_label Window.status_messages
       Window.dark_mode Window.app_palette].
  change Window.light_palette
    with (if false then Window.dark_palette else Window.light_palette) at 1.
  change (Nat.odd n) with (xorb false (Nat.odd n)).
  generalize false as d, (Window.world win), (Window.language_label win),
    (Window.status_messages win).
  induction n as [|n IH]; intros d w l m.
  - cbn [Window.toggles ret Nat.odd Nat.even negb]. rewrite xorb_false_r. repeat split.
  - cbn [Window.toggles]. unfold bind at 1. rewrite toggle_theme_result.
    cbn [Window.world Window.language_label Window.status_messages
         Window.dark_mode Window.app_palette].
    specialize (IH (negb d) w l m).
    destruct (Window.toggles n _) as [r win'].
    destruct IH as (-> & Hd & Hp & -> & -> & ->).
    rewrite Hd, Hp.
    replace (xorb d (Nat.odd (S n))) with (xorb (negb d) (Nat.odd n)); [repeat split|].
    rewrite Nat.odd_succ, <- Nat.negb_odd. by destruct d, (Nat.odd n).
Qed.

(** Without a current tab, [close_tab] does nothing. *)
Lemma close_tab_no_tab (win : Window.Window) :
  Editor.current (Window.world win) = None ->
  Window.close_tab win = (Py.Return tt, win).
Proof.
  unfold Editor.current, Window.close_tab, Window.removeTab, bind at 1, get at 1.
  destruct (Z.ltb_spec (Editor.currentIndex (Window.world win)) 0) as [Hneg|Hpos].
  - intros _. rewrite (proj2 (Z.leb_gt _ _)) by lia. reflexivity.
  - intros Hnone%lookup_ge_None. rewrite (proj2 (Z.leb_le _ _)) by lia.
    unfold bind at 1, get at 1. cbn [andb].
    rewrite (proj2 (Z.ltb_ge _ _)) by lia. reflexivity.
Qed.

(** With one, the current tab goes, the index moves as the tab widget moves
    it, and the label is set anew. *)
Lemma close_tab_current (win : Window.Window) (t : Editor.ScriptTab) :
  Editor.current (Window.world win) = Some t ->
  let w := Window.world win in
  let idx := Editor.currentIndex w in
  let tabs' := delete (Z.to_nat idx) (Editor.tabs w) in
  let idx' := (if (idx =? Z.of_nat (length tabs'))%Z then idx - 1 else idx)%Z in
  Window.close_tab win =
    Window.update_status
      (Window.mkWindow (Editor.mkWorld tabs' idx' (Editor.disk w) (Editor.events w))
         (Window.language_label win) (Window.status_messages win)
         (Window.dark_mode win) (Window.app_palette win)).
Proof.
  unfold Editor.current. intros Hcur. cbv zeta.
  destruct (Z.ltb_spec (Editor.currentIndex (Window.world win)) 0) as [|Hpos];
    [discriminate|].
  apply lookup_lt_Some in Hcur.
  unfold Window.close_tab, Window.removeTab, bind at 1, get at 1.
  rewrite (proj2 (Z.leb_le _ _)) by lia.
  unfold bind at 1, get at 1.
  rewrite (proj2 (Z.ltb_lt _ _)) by lia.
  cbn [andb]. rewrite Z.eqb_refl.
  unfold bind, Window.lift, modify. reflexivity.
Qed.

(** X14.  [close_tab] removes the current tab without asking and without
    saving: nothing is written (disk and events are as they were), the other
    tabs stay in order, and the language label is the one of the tab that is
    current afterwards.  A tab is current afterwards unless no tab is left.
    Without a current tab, [close_tab] does nothing. *)
Theorem close_tab_discards_current (win : Window.Window) :
  let w := Window.world win in
  let '(r, win') := Window.close_tab win in
  let w' := Window.world win' in
  r = Py.Return tt
  /\ Editor.disk w' = Editor.disk w
  /\ Editor.events w' = Editor.events w
  /\ Window.status_messages win' = Window.status_messages win
  /\ match Editor.current w with
     | None => win' = win
     | Some _ =>
         Editor.tabs w' = delete (Z.to_nat (Editor.currentIndex w)) (Editor.tabs w)
         /\ (Editor.current w' = None <-> Editor.tabs w' = [])
         /\ Window.update_status win' = (Py.Return tt, win')
     end.
Proof.
  intros w. subst w.
  destruct (Editor.current (Window.world win)) as [t|] eqn:Hcur.
  2: { rewrite (close_tab_no_tab win Hcur). cbv zeta. repeat split. }
  rewrite (close_tab_current win t Hcur). cbv zeta.
  rewrite update_status_result.
  cbn [Window.world Window.language_label Window.status_messages Window.dark_mode
       Window.app_palette Editor.disk Editor.events Editor.tabs].
  do 5 (split; [reflexivity|]). split.
  - unfold Editor.current in *. cbn [Editor.tabs Editor.currentIndex].
    destruct (Z.ltb_spec (Editor.currentIndex (Window.world win)) 0) as [|Hpos];
      [discriminate|].
    apply lookup_lt_Some in Hcur.
    pose proof (length_delete (Editor.tabs (Window.world win))
                  (Z.to_nat (Editor.currentIndex (Window.world win)))) as Hlen.
    rewrite <- (lookup_lt_is_Some (Editor.tabs (Window.world win))) in Hcur.
    specialize (Hlen Hcur). apply lookup_lt_is_Some in Hcur.
    set (tabs' := delete _ _) in *.
    set (idx := Editor.currentIndex (Window.world win)) in *.
    destruct (Z.eqb_spec idx (Z.of_nat (length tabs'))) as [Heq|Hneq].
    + destruct (Z.ltb_spec (idx - 1) 0) as [Hlt|Hge].
      * split; [|done]. intros _. apply nil_length_inv. lia.
      * split.
        -- intros Hnone%lookup_ge_None. lia.
        -- intros Hnil. apply (f_equal length) in Hnil. cbn in Hnil. lia.
    + destruct (Z.ltb_spec idx 0) as [Hlt|Hge]; [lia|]. split.
      * intros Hnone%lookup_ge_None. lia.
      * intros Hnil. apply (f_equal length) in Hnil. cbn in Hnil. lia.
  - rewrite update_status_result.
    cbn [Window.world Window.language_label Window.status_messages Window.dark_mode
         Window.app_palette]. reflexivity.
Qed.

(* ===================================================================== *)
(** ** The terminal in the event loop *)
(* ===================================================================== *)

(** With an empty input box, no key does anything. *)
Lemma press_keys_empty_input (keys : list Z) (self : Terminal.TerminalWidget) :
  Terminal.input self = [] ->
  EventLoop.press_keys keys self = (Py.Return tt, self).
Proof.
  intros Hin. induction keys as [|key keys IH]; [reflexivity|].
  cbn [EventLoop.press_keys]. unfold bind.
  destruct (Z.eq_dec key Qt.Key_Return) as [->|Hk].
  - rewrite handle_keypress_return, Hin. cbn.
    destruct self as [p o i]. cbn in Hin. subst i. exact IH.
  - rewrite (handle_keypress_other_key key self Hk). exact IH.
Qed.

(** Text that cannot be encoded stays so with more text after it. *)
Lemma utf8_encode_app_none s1 s2 :
  Py.utf8_encode s1 = None -> Py.utf8_encode (s1 ++ s2) = None.
Proof.
  induction s1 as [|c s1 IH]; cbn [Py.utf8_encode app]; [discriminate|].
  destruct (Py.encode_code_point c); [|reflexivity].
  destruct (Py.utf8_encode s1); [discriminate|]. intros _. by rewrite IH.
Qed.

(** X15.  Key events on the input box, the shell running: keys other than
    Return do nothing at all; the first Return empties the box and sends the
    stripped command with one newline (nothing when the command is empty),
    or, when the command holds a lone surrogate, raises after emptying the
    box and sends nothing; every later Return sends nothing; the output view
    never changes and no process is launched. *)
Theorem press_keys_submit_once (keys : list Z) (self : Terminal.TerminalWidget) :
  Qt.state (Terminal.process self) <> Qt.NotRunning ->
  let command := Py.strip (Terminal.input self) in
  let '(r, self') := EventLoop.press_keys keys self in
  Terminal.output self' = Terminal.output self
  /\ Qt.launched (Terminal.process self') = Qt.launched (Terminal.process self)
  /\ (Qt.Key_Return ∉ keys -> r = Py.Return tt /\ self' = self)
  /\ (Qt.Key_Return ∈ keys ->
      Terminal.input self' = []
      /\ match Py.utf8_encode command with
         | Some b =>
             r = Py.Return tt
             /\ Qt.child_stdin (Terminal.process self')
                = Qt.child_stdin (Terminal.process self)
                  ++ (if Py.truthy command then b ++ [10] else [])
         | None =>
             r = Py.Raise Py.UnicodeEncodeError
             /\ Qt.child_stdin (Terminal.process self')
                = Qt.child_stdin (Terminal.process self)
         end).
Proof.
  intros Hrun command. induction keys as [|key keys IH].
  - cbn. do 2 (split; [reflexivity|]). split; [done|].
    intros H. by apply elem_of_nil in H.
  - cbn [EventLoop.press_keys]. unfold bind at 1.
    destruct (Z.eq_dec key Qt.Key_Return) as [->|Hk].
    + rewrite handle_keypress_return. cbv zeta. fold command.
      destruct (Py.truthy command) eqn:Ht.
      * destruct (Py.utf8_encode command) as [b|] eqn:Hb.
        -- rewrite (utf8_encode_app command [10] b [10] Hb eq_refl).
           rewrite press_keys_empty_input by reflexivity.
           cbn [Terminal.output Terminal.input Terminal.process].
           unfold Qt.write.
           destruct (Qt.state (Terminal.process self)) eqn:Hs; [done| |];
             do 2 (split; [reflexivity|]);
             (split; [intros Hn; exfalso; apply Hn; left|]);
             intros _; by repeat split.
        -- rewrite (utf8_encode_app_none command [10] Hb).
           cbn [Terminal.output Terminal.input Terminal.process].
           do 2 (split; [reflexivity|]).
           split; [intros Hn; exfalso; apply Hn; left|].
           intros _. by repeat split.
      * assert (command = []) as Hc by (by destruct command).
        rewrite Hc. cbn [Py.utf8_encode].
        rewrite press_keys_empty_input by reflexivity.
        cbn [Terminal.output Terminal.input Terminal.process].
        do 2 (split; [reflexivity|]).
        split; [intros Hn; exfalso; apply Hn; left|].
        intros _. split; [reflexivity|]. split; [reflexivity|]. by rewrite app_nil_r.
    + rewrite (handle_keypress_other_key key self Hk).
      destruct (EventLoop.press_keys keys self) as [r self'].
      destruct IH as (Ho & Hl & Hnot & Hin).
      do 2 (split; [done|]). split.
      * intros Hn. apply Hnot. intros Hr. apply Hn. by right.
      * intros H. apply Hin. apply elem_of_cons in H as [H|H]; [congruence|done].
Qed.

(** The letter d, Return, Return on the keypad, Return: one command. *)
Lemma press_keys_submit_once_witness :
  let self := Terminal.mkTerminal (Terminal.process Sample.running) [] (lit " dir ") in
  let self' := (EventLoop.press_keys [0x44%Z; Qt.Key_Return; Qt.Key_Enter; Qt.Key_Return] self).2 in
  Qt.state (Terminal.process self) <> Qt.NotRunning
  /\ Terminal.input self' = []
  /\ Qt.child_stdin (Terminal.process self') = lit "dir" ++ [10].
Proof.
  intros self self'. split; [discriminate|].
  pose proof (press_keys_submit_once [0x44%Z; Qt.Key_Return; Qt.Key_Enter; Qt.Key_Return]
                self) as H.
  cbv zeta in H. subst self'.
  destruct (EventLoop.press_keys _ self) as [r s']. cbn [snd].
  destruct H as (_ & _ & _ & H); [discriminate|].
  destruct H as (Hin & _ & Hs); [right; left|].
  split; [exact Hin|]. exact Hs.
Defined.

(** A chunk that is the encoding of a text, arriving at an empty buffer. *)
Lemma stdout_arrives_text (self : Terminal.TerminalWidget) (text chunk : list N) :
  Py.utf8_encode text = Some chunk ->
  Qt.stdout_buffer (Terminal.process self) = [] ->
  EventLoop.stdout_arrives chunk self =
    (Py.Return tt,
     Terminal.mkTerminal (Terminal.process self) (Terminal.output self ++ [text])
       (Terminal.input self)).
Proof.
  intros Henc%utf8_decode_encode Hbuf.
  unfold EventLoop.stdout_arrives, bind at 1, get at 1, bind at 1,
    Terminal.set_process, modify.
  rewrite on_stdout_decode. cbv zeta.
  cbn [Terminal.process Terminal.output Terminal.input Qt.receive_stdout
       Qt.stdout_buffer Qt.readAllStandardOutput snd
       Qt.state Qt.launched Qt.child_stdin Qt.stderr_buffer].
  rewrite Hbuf. cbn [app]. rewrite Henc.
  destruct self as [[s l i o e] out inp]. cbn in Hbuf. subst o. reflexivity.
Qed.

(** X16.  Chunks of standard output that each hold the encoding of a text,
    read one after the other: the output view receives exactly these texts,
    in the order of arrival, one paragraph per chunk, and the buffer is
    empty again. *)
Theorem stdout_stream_in_order
    (texts chunks : list (list N)) (self : Terminal.TerminalWidget) :
  Forall2 (fun text chunk => Py.utf8_encode text = Some chunk) texts chunks ->
  Qt.stdout_buffer (Terminal.process self) = [] ->
  EventLoop.stdout_stream chunks self =
    (Py.Return tt,
     Terminal.mkTerminal (Terminal.process self) (Terminal.output self ++ texts)
       (Terminal.input self)).
Proof.
  intros Hall. revert self.
  induction Hall as [|text chunk texts chunks Henc _ IH]; intros self Hbuf.
  - cbn. rewrite app_nil_r. by destruct self.
  - cbn [EventLoop.stdout_stream]. unfold bind.
    rewrite (stdout_arrives_text self text chunk Henc Hbuf), IH by exact Hbuf.
    cbn [Terminal.process Terminal.output Terminal.input].
    by rewrite <- app_assoc.
Qed.

Lemma stdout_stream_in_order_witness :
  EventLoop.stdout_stream [[0x68; 0xC3; 0xA9]; [0x6F; 0x6B]] Sample.running
  = (Py.Return tt,
     Terminal.mkTerminal (Terminal.process Sample.running) [[0x68; 0xE9]; lit "ok"] []).
Proof.
  apply (stdout_stream_in_order [[0x68; 0xE9]; lit "ok"]); [|reflexivity].
  repeat constructor.
Defined.

(** X17.  [on_stdout] reads everything that has arrived: when the bytes of a
    text arrive in two chunks before the reader runs, wherever the cut is,
    the text is appended whole. *)
Theorem stdout_chunks_read_together
    (self : Terminal.TerminalWidget) (text b1 b2 : list N) :
  Py.utf8_encode text = Some (b1 ++ b2) ->
  Qt.stdout_buffer (Terminal.process self) = [] ->
  Terminal.on_stdout
    (Terminal.mkTerminal
       (Qt.receive_stdout b2 (Qt.receive_stdout b1 (Terminal.process self)))
       (Terminal.output self) (Terminal.input self))
  = (Py.Return tt,
     Terminal.mkTerminal (Terminal.process self) (Terminal.output self ++ [text])
       (Terminal.input self)).
Proof.
  intros Henc%utf8_decode_encode Hbuf. rewrite on_stdout_decode. cbv zeta.
  cbn [Terminal.process Terminal.output Terminal.input Qt.receive_stdout
       Qt.stdout_buffer Qt.readAllStandardOutput snd
       Qt.state Qt.launched Qt.child_stdin Qt.stderr_buffer].
  rewrite Hbuf. cbn [app]. rewrite Henc.
  destruct self as [[s l i o e] out inp]. cbn in Hbuf. subst o. reflexivity.
Qed.

(** The two bytes of an e with an acute accent, one in each chunk. *)
Lemma stdout_chunks_read_together_witness :
  Terminal.on_stdout
    (Terminal.mkTerminal
       (Qt.receive_stdout [0xA9]
          (Qt.receive_stdout [0x68; 0xC3] (Terminal.process Sample.running))) [] [])
  = (Py.Return tt,
     Terminal.mkTerminal (Terminal.process Sample.running) [[0x68; 0xE9]] []).
Proof.
  exact (stdout_chunks_read_together Sample.running [0x68; 0xE9] [0x68; 0xC3] [0xA9]
           eq_refl eq_refl).
Defined.

(** X18.  The two readers do not interfere: each takes the bytes of its own
    stream only, so with text pending on both streams, reading them in
    either order empties both buffers and appends both texts, in the order
    of the reads; the input of the shell and the state of the process are
    not touched. *)
Theorem readers_do_not_interfere
    (self : Terminal.TerminalWidget) (out err : list N) :
  Py.utf8_decode (Qt.stdout_buffer (Terminal.process self)) = Some out ->
  Py.utf8_decode (Qt.stderr_buffer (Terminal.process self)) = Some err ->
  let p := Terminal.process self in
  let drained := Qt.mkProcess (Qt.state p) (Qt.launched p) (Qt.child_stdin p) [] [] in
  (Terminal.on_stdout ;; Terminal.on_stderr) self
  = (Py.Return tt,
     Terminal.mkTerminal drained (Terminal.output self ++ [out; err]) (Terminal.input self))
  /\ (Terminal.on_stderr ;; Terminal.on_stdout) self
     = (Py.Return tt,
        Terminal.mkTerminal drained (Terminal.output self ++ [err; out])
          (Terminal.input self)).
Proof.
  intros Hout Herr p drained. subst p drained. unfold bind. split.
  - rewrite on_stdout_decode, Hout. cbv beta iota zeta.
    rewrite on_stderr_decode. cbv beta iota zeta.
    cbn [Terminal.process Terminal.output Terminal.input Qt.readAllStandardOutput
         Qt.readAllStandardError snd Qt.state Qt.launched Qt.child_stdin
         Qt.stdout_buffer Qt.stderr_buffer].
    rewrite Herr, <- app_assoc. reflexivity.
  - rewrite on_stderr_decode, Herr. cbv beta iota zeta.
    rewrite on_stdout_decode. cbv beta iota zeta.
    cbn [Terminal.process Terminal.output Terminal.input Qt.readAllStandardOutput
         Qt.readAllStandardError snd Qt.state Qt.launched Qt.child_stdin
         Qt.stdout_buffer Qt.stderr_buffer].
    rewrite Hout, <- app_assoc. reflexivity.
Qed.

Lemma readers_do_not_interfere_witness :
  let self :=
    Terminal.mkTerminal
      (Qt.receive_stderr (lit "no") (Qt.receive_stdout (lit "ok")
         (Terminal.process Sample.running))) [] [] in
  Terminal.output ((Terminal.on_stdout ;; Terminal.on_stderr) self).2 = [lit "ok"; lit "no"]
  /\ Terminal.output ((Terminal.on_stderr ;; Terminal.on_stdout) self).2 = [lit "no"; lit "ok"].
Proof.
  intros self.
  destruct (readers_do_not_interfere self (lit "ok") (lit "no") eq_refl eq_refl)
    as [-> ->].
  split; reflexivity.
Defined.

(** Some values of the modelled [QProcess.start]. *)
Example parse_shell : Qt.parseCombinedArgString (lit "cmd.exe") = [lit "cmd.exe"].
Proof. reflexivity. Qed.

Example parse_arguments :
  Qt.parseCombinedArgString (lit "cmd.exe  /k  echo hi")
  = [lit "cmd.exe"; lit "/k"; lit "echo"; lit "hi"].
Proof. reflexivity. Qed.

Example parse_blank : Qt.parseCombinedArgString (lit "   ") = [].
Proof. reflexivity. Qed.

Example start_blank_command :
  Qt.start (lit "   ") true Qt.new_process = Qt.new_process.
Proof. reflexivity. Qed.

Example start_not_created :
  Qt.state (Qt.start (lit "cmd.exe") false Qt.new_process) = Qt.NotRunning.
Proof. reflexivity. Qed.

Example start_twice :
  Qt.launched (Qt.start (lit "powershell") true (Qt.start (lit "cmd.exe") true Qt.new_process))
  = [lit "cmd.exe"].
Proof. reflexivity. Qed.
